(** * AbstractTypeOrmDomainMutationEventService

    A shallow embedding of [src/interface/entity-and-event.interface.ts]:
    the abstract service whose [create], [update] and [delete] run an entity
    mutation and the publication of its domain event inside one call of
    [transactionService.transaction].

    Promises are modelled by their settlement ([Resolved] or [Rejected]); an
    [await] is a monadic bind, and an exception thrown inside an [async]
    function is the rejection of the promise that function returns.  Every
    call the service makes on a collaborator is recorded, in order, in the
    list of [calls] of the run, the way a test double records its calls. *)

From Stdlib Require Import List String Arith Lia Bool.
Import ListNotations.

Set Implicit Arguments.

(** ** Settled promises *)

Inductive Outcome (Err A : Type) : Type :=
| Resolved (a : A)
| Rejected (e : Err).

Arguments Resolved {Err A} a.
Arguments Rejected {Err A} e.

Section Service.

(** [EN] and [D] are the type parameters of the class; the other types are
    the opaque values of the collaborators' packages. *)
Variables EN D : Type.
Variables DomainEventInterface QueryRunner EventPublisher Err World : Type.

(** [EntityAndEventInterface<EN>] *)
Record EntityAndEventInterface : Type := {
  entity : EN;
  event : DomainEventInterface
}.

(** One entry per call, with its arguments: the calls the service makes on
    its collaborators, and the commit or rollback with which the transaction
    manager closes the unit of work. *)
Inductive Call : Type :=
| CallTransaction
| CallCommit (queryRunner : QueryRunner)
| CallRollback (queryRunner : QueryRunner)
| CallGetEntityForCreateAndEvent (queryRunner : QueryRunner) (data : D)
| CallGetEntityForUpdateAndEvent (queryRunner : QueryRunner) (id : string) (data : D)
| CallGetEntityForDeleteAndEvent (queryRunner : QueryRunner) (id : string)
| CallFactoryCreate (queryRunner : QueryRunner)
| CallPublish (eventPublisher : EventPublisher) (event : DomainEventInterface)
| CallSave (queryRunner : QueryRunner) (entity : EN)
| CallRemove (queryRunner : QueryRunner) (entity : EN)
| CallConsoleLog (entity : EN).

(** ** The monad of the service: world, call log, settlement *)

(** What a collaborator does: it changes the world outside the service and
    settles. *)
Definition Ext (A : Type) : Type := World -> World * Outcome Err A.

Record Run (A : Type) : Type := {
  calls : list Call;
  final : World;
  settled : Outcome Err A
}.

Definition M (A : Type) : Type := World -> Run A.

Definition ret {A} (a : A) : M A :=
  fun w => {| calls := []; final := w; settled := Resolved a |}.

Definition throw {A} (e : Err) : M A :=
  fun w => {| calls := []; final := w; settled := Rejected e |}.

Definition bind {A B} (m : M A) (k : A -> M B) : M B :=
  fun w =>
    match m w with
    | {| calls := c; final := w1; settled := Resolved a |} =>
        match k a w1 with
        | {| calls := c'; final := w2; settled := o |} =>
            {| calls := c ++ c'; final := w2; settled := o |}
        end
    | {| calls := c; final := w1; settled := Rejected e |} =>
        {| calls := c; final := w1; settled := Rejected e |}
    end.

(** A call on a collaborator: logged, then performed. *)
Definition call {A} (c : Call) (f : Ext A) : M A :=
  fun w =>
    let (w', o) := f w in
    {| calls := [c]; final := w'; settled := o |}.

(** A logged call that neither fails nor touches the world. *)
Definition log (c : Call) : M unit :=
  fun w => {| calls := [c]; final := w; settled := Resolved tt |}.

(** A step of a collaborator's own implementation: performed, not logged. *)
Definition lift {A} (f : Ext A) : M A :=
  fun w =>
    let (w', o) := f w in
    {| calls := []; final := w'; settled := o |}.

(** [console.log(x)] *)
Definition console_log (x : EN) : M unit := log (CallConsoleLog x).

(** A promise that is created and then dropped by an [async] function that
    returns nothing: the calls the promise goes on to make are made and
    their effects take place, but its settlement reaches nobody, and the
    function's own promise resolves with [undefined]. *)
Definition unawaited {A} (m : M A) : M unit :=
  fun w =>
    match m w with
    | {| calls := c; final := w'; settled := _ |} =>
        {| calls := c; final := w'; settled := Resolved tt |}
    end.

(** The settlement of [m] as a value, for a caller that has [try]/[catch]. *)
Definition attempt {A} (m : M A) : M (Outcome Err A) :=
  fun w =>
    match m w with
    | {| calls := c; final := w'; settled := o |} =>
        {| calls := c; final := w'; settled := Resolved o |}
    end.

Notation "x <- m ;; k" := (bind m (fun x => k))
  (at level 61, m at next level, right associativity).
Notation "m ;;; k" := (bind m (fun _ => k))
  (at level 61, right associativity).

(** ** Collaborators *)

(** The three abstract methods a subclass supplies. *)
Class Subclass : Type := {
  getEntityForCreateAndEvent : QueryRunner -> D -> Ext EntityAndEventInterface;
  getEntityForUpdateAndEvent : QueryRunner -> string -> D -> Ext EntityAndEventInterface;
  getEntityForDeleteAndEvent : QueryRunner -> string -> Ext EntityAndEventInterface
}.

(** [DomainEventPublisherFactoryInterface]: [create] is synchronous and may
    throw; [publish] returns a promise. *)
Class DomainEventPublisherFactoryInterface : Type := {
  factory_create : QueryRunner -> Ext EventPublisher;
  publish : EventPublisher -> DomainEventInterface -> Ext unit
}.

(** [queryRunner.manager] *)
Class EntityManager : Type := {
  manager_save : QueryRunner -> EN -> Ext EN;
  manager_remove : QueryRunner -> EN -> Ext EN
}.

(** [TypeOrmTransactionInterface]: [transaction<T>(work): Promise<T>].  A
    transaction service is taken at its declared type: calling it yields a
    promise, and whatever goes wrong in it is the rejection of that promise. *)
Class TypeOrmTransactionInterface : Type := {
  transaction : forall T : Type, (QueryRunner -> M T) -> M T
}.

(** ** The service *)

Section Operations.

Context {hooks : Subclass}.
Context {eventPublisherFactory : DomainEventPublisherFactoryInterface}.
Context {manager : EntityManager}.

(** The arrow function [create] hands to [transaction] (lines 36-48). *)
Definition create_work (data : D) (queryRunner : QueryRunner) : M EN :=
  p <- call (CallGetEntityForCreateAndEvent queryRunner data)
            (getEntityForCreateAndEvent queryRunner data) ;;
  eventPublisher <- call (CallFactoryCreate queryRunner) (factory_create queryRunner) ;;
  call (CallPublish eventPublisher (event p)) (publish eventPublisher (event p)) ;;;
  call (CallSave queryRunner (entity p)) (manager_save queryRunner (entity p)).

(** The arrow function of [update] (lines 64-81). *)
Definition update_work (id : string) (data : D) (queryRunner : QueryRunner) : M EN :=
  p <- call (CallGetEntityForUpdateAndEvent queryRunner id data)
            (getEntityForUpdateAndEvent queryRunner id data) ;;
  eventPublisher <- call (CallFactoryCreate queryRunner) (factory_create queryRunner) ;;
  update <- call (CallSave queryRunner (entity p)) (manager_save queryRunner (entity p)) ;;
  console_log update ;;;
  call (CallPublish eventPublisher (event p)) (publish eventPublisher (event p)) ;;;
  ret update.

(** The arrow function of [delete] (lines 93-105). *)
Definition delete_work (id : string) (queryRunner : QueryRunner) : M EN :=
  p <- call (CallGetEntityForDeleteAndEvent queryRunner id)
            (getEntityForDeleteAndEvent queryRunner id) ;;
  eventPublisher <- call (CallFactoryCreate queryRunner) (factory_create queryRunner) ;;
  call (CallPublish eventPublisher (event p)) (publish eventPublisher (event p)) ;;;
  call (CallRemove queryRunner (entity p)) (manager_remove queryRunner (entity p)).

Context {transactionService : TypeOrmTransactionInterface}.

(** [this.transactionService.transaction<EN>(work)]: the call is logged,
    then the manager takes over. *)
Definition call_transaction (work : QueryRunner -> M EN) : M EN :=
  log CallTransaction ;;; transaction work.

(** [async create(data: D): Promise<EN>] *)
Definition create (data : D) : M EN :=
  result <- call_transaction (create_work data) ;;
  ret result.

(** [async update(id: string, data: D): Promise<EN>] *)
Definition update (id : string) (data : D) : M EN :=
  result <- call_transaction (update_work id data) ;;
  ret result.

(** [async delete(id: string): Promise<void>]: the promise of
    [transaction] is neither awaited nor returned. *)
Definition delete (id : string) : M unit :=
  unawaited (call_transaction (delete_work id)).

End Operations.

(** ** The transaction manager *)

(** The primitives of a unit of work. *)
Class UnitOfWork : Type := {
  acquire : Ext QueryRunner;
  commit : QueryRunner -> Ext unit;
  rollback : QueryRunner -> Ext unit
}.

(** Modelled from the spec: the transaction manager is the external package
    [transaction-typeorm], of which only the interface is imported.  It
    executes [work] within a new unit of work, commits if [work] resolves,
    rolls back if it rejects, and propagates the resolution or rejection to
    the caller; a failure of the acquisition, of the commit or of the
    rollback is itself propagated. *)
Definition unit_of_work_transaction {uow : UnitOfWork}
    (T : Type) (work : QueryRunner -> M T) : M T :=
  queryRunner <- lift acquire ;;
  o <- attempt (work queryRunner) ;;
  match o with
  | Resolved v => call (CallCommit queryRunner) (commit queryRunner) ;;; ret v
  | Rejected e => call (CallRollback queryRunner) (rollback queryRunner) ;;; throw e
  end.

Definition UnitOfWorkTransaction {uow : UnitOfWork} : TypeOrmTransactionInterface :=
  {| transaction := @unit_of_work_transaction uow |}.

(** ** Reading a call log *)

Definition is_transaction (c : Call) : bool :=
  match c with CallTransaction => true | _ => false end.

Definition is_commit (c : Call) : bool :=
  match c with CallCommit _ => true | _ => false end.

Definition is_publish (c : Call) : bool :=
  match c with CallPublish _ _ => true | _ => false end.

Definition is_save (c : Call) : bool :=
  match c with CallSave _ _ => true | _ => false end.

Definition is_remove (c : Call) : bool :=
  match c with CallRemove _ _ => true | _ => false end.

Definition is_console_log (c : Call) : bool :=
  match c with CallConsoleLog _ => true | _ => false end.

(** The persistence action of an operation: [save] or [remove]. *)
Definition is_persist (c : Call) : bool := is_save c || is_remove c.

(** A call of one of the three abstract methods. *)
Definition is_hook (c : Call) : bool :=
  match c with
  | CallGetEntityForCreateAndEvent _ _
  | CallGetEntityForUpdateAndEvent _ _ _
  | CallGetEntityForDeleteAndEvent _ _ => true
  | _ => false
  end.

Definition is_factory_create (c : Call) : bool :=
  match c with CallFactoryCreate _ => true | _ => false end.

Definition count_calls (p : Call -> bool) (l : list Call) : nat :=
  List.length (filter p l).

(** Index of the first call that satisfies [p]. *)
Fixpoint position (p : Call -> bool) (l : list Call) : option nat :=
  match l with
  | [] => None
  | c :: l' => if p c then Some 0 else option_map S (position p l')
  end.

(** Both kinds of call occur, and the first [p] comes before the first [q]. *)
Definition happens_before (p q : Call -> bool) (l : list Call) : bool :=
  match position p l, position q l with
  | Some i, Some j => i <? j
  | _, _ => false
  end.

(** A call made by a work function that was handed [queryRunner]: the hook,
    the factory and the entity manager are called with that handle, and the
    publisher that receives [publish] is one the factory made for it. *)
Definition on_runner {eventPublisherFactory : DomainEventPublisherFactoryInterface}
    (queryRunner : QueryRunner) (c : Call) : Prop :=
  match c with
  | CallGetEntityForCreateAndEvent q _ => q = queryRunner
  | CallGetEntityForUpdateAndEvent q _ _ => q = queryRunner
  | CallGetEntityForDeleteAndEvent q _ => q = queryRunner
  | CallFactoryCreate q => q = queryRunner
  | CallSave q _ => q = queryRunner
  | CallRemove q _ => q = queryRunner
  | CallPublish eventPublisher _ =>
      exists w, snd (factory_create queryRunner w) = Resolved eventPublisher
  | CallConsoleLog _ => True
  | CallTransaction | CallCommit _ | CallRollback _ => False
  end.

(** The calls [l] of an invocation that starts in world [w] and hands [work]
    to the unit-of-work manager: [transaction] is called once; if no unit
    of work can be acquired nothing else is called; otherwise the calls of
    [work], all made on the handle the manager supplied, stand between the
    call of [transaction] and one commit or rollback on that handle, and
    the commit is only asked for when [work] has resolved, after exactly one
    [publish] and exactly one [save] or [remove]. *)
Definition in_one_transaction
    {eventPublisherFactory : DomainEventPublisherFactoryInterface}
    {uow : UnitOfWork}
    (work : QueryRunner -> M EN) (w : World) (l : list Call) : Prop :=
  count_calls is_transaction l = 1
  /\ (forall w1 e, acquire w = (w1, Rejected e) -> l = [CallTransaction])
  /\ (forall w1 queryRunner, acquire w = (w1, Resolved queryRunner) ->
        let body := calls (work queryRunner w1) in
        exists closing,
          l = CallTransaction :: body ++ [closing]
          /\ (closing = CallCommit queryRunner \/ closing = CallRollback queryRunner)
          /\ Forall (on_runner queryRunner) body
          /\ (is_commit closing = true ->
              (exists v, settled (work queryRunner w1) = Resolved v)
              /\ count_calls is_publish body = 1 /\ count_calls is_persist body = 1)).

End Service.

Arguments ret {EN D DomainEventInterface QueryRunner EventPublisher Err World A} a.
Arguments throw {EN D DomainEventInterface QueryRunner EventPublisher Err World A} e.
Arguments log {EN D DomainEventInterface QueryRunner EventPublisher Err World} c.
Arguments console_log {EN D DomainEventInterface QueryRunner EventPublisher Err World} x.

Arguments is_transaction {EN D DomainEventInterface QueryRunner EventPublisher} c.
Arguments is_commit {EN D DomainEventInterface QueryRunner EventPublisher} c.
Arguments is_publish {EN D DomainEventInterface QueryRunner EventPublisher} c.
Arguments is_save {EN D DomainEventInterface QueryRunner EventPublisher} c.
Arguments is_remove {EN D DomainEventInterface QueryRunner EventPublisher} c.
Arguments is_console_log {EN D DomainEventInterface QueryRunner EventPublisher} c.
Arguments is_persist {EN D DomainEventInterface QueryRunner EventPublisher} c.
Arguments is_hook {EN D DomainEventInterface QueryRunner EventPublisher} c.
Arguments is_factory_create {EN D DomainEventInterface QueryRunner EventPublisher} c.

Arguments CallTransaction {EN D DomainEventInterface QueryRunner EventPublisher}.
Arguments CallCommit {EN D DomainEventInterface QueryRunner EventPublisher} queryRunner.
Arguments CallRollback {EN D DomainEventInterface QueryRunner EventPublisher} queryRunner.
Arguments CallGetEntityForCreateAndEvent
  {EN D DomainEventInterface QueryRunner EventPublisher} queryRunner data.
Arguments CallGetEntityForUpdateAndEvent
  {EN D DomainEventInterface QueryRunner EventPublisher} queryRunner id data.
Arguments CallGetEntityForDeleteAndEvent
  {EN D DomainEventInterface QueryRunner EventPublisher} queryRunner id.
Arguments CallFactoryCreate {EN D DomainEventInterface QueryRunner EventPublisher} queryRunner.
Arguments CallPublish {EN D DomainEventInterface QueryRunner EventPublisher} eventPublisher event.
Arguments CallSave {EN D DomainEventInterface QueryRunner EventPublisher} queryRunner entity.
Arguments CallRemove {EN D DomainEventInterface QueryRunner EventPublisher} queryRunner entity.
Arguments CallConsoleLog {EN D DomainEventInterface QueryRunner EventPublisher} entity.
Arguments UnitOfWorkTransaction {EN D DomainEventInterface QueryRunner EventPublisher Err World} uow.

(** ** A concrete subclass over an in-memory database

    A service for [Person] entities, with collaborators that can be set to
    fail, used to run the operations on concrete inputs. *)

Module Demo.

Record Person : Type := {
  person_id : option string;
  person_name : string
}.

(** The collaborator calls that can be set to fail. *)
Inductive Fault : Type :=
| AcquireFails | HookFails | FactoryFails | PublishFails
| SaveFails | RemoveFails | CommitFails | RollbackFails.

Definition fault_eqb (a b : Fault) : bool :=
  match a, b with
  | AcquireFails, AcquireFails | HookFails, HookFails
  | FactoryFails, FactoryFails | PublishFails, PublishFails
  | SaveFails, SaveFails | RemoveFails, RemoveFails
  | CommitFails, CommitFails | RollbackFails, RollbackFails => true
  | _, _ => false
  end.

(** The world outside the service: the table, the published events, the
    state saved when a unit of work began, and the faults that are armed. *)
Record Database : Type := {
  faults : list Fault;
  next_runner : nat;
  rows : list Person;
  outbox : list string;
  snapshot : option (list Person * list string)
}.

Definition armed (f : Fault) (w : Database) : bool :=
  existsb (fault_eqb f) (faults w).

Definition with_rows (l : list Person) (w : Database) : Database :=
  {| faults := faults w; next_runner := next_runner w; rows := l;
     outbox := outbox w; snapshot := snapshot w |}.

Definition with_outbox (l : list string) (w : Database) : Database :=
  {| faults := faults w; next_runner := next_runner w; rows := rows w;
     outbox := l; snapshot := snapshot w |}.

Definition has_id (id : string) (p : Person) : bool :=
  match person_id p with
  | Some i => String.eqb i id
  | None => false
  end.

Definition same_id (p q : Person) : bool :=
  match person_id p with
  | Some i => has_id i q
  | None => false
  end.

(** Identifiers are generated as "1", "11", "111", ... *)
Fixpoint fresh_id (n : nat) : string :=
  match n with
  | O => "1"%string
  | S n' => ("1" ++ fresh_id n')%string
  end.

Definition guarded {A} (f : Fault) (msg : string)
    (k : Database -> Database * Outcome string A)
    (w : Database) : Database * Outcome string A :=
  if armed f w then (w, Rejected msg) else k w.

Definition demo_hooks : Subclass Person string string nat string Database := {|
  getEntityForCreateAndEvent := fun _ data =>
    guarded HookFails "hook failed" (fun w =>
      (w, Resolved {| entity := {| person_id := None; person_name := data |};
                      event := "PersonCreated" |}));
  getEntityForUpdateAndEvent := fun _ id data =>
    guarded HookFails "hook failed" (fun w =>
      match find (has_id id) (rows w) with
      | Some _ =>
          (w, Resolved {| entity := {| person_id := Some id; person_name := data |};
                          event := "PersonUpdated" |})
      | None => (w, Rejected "not found")
      end);
  getEntityForDeleteAndEvent := fun _ id =>
    guarded HookFails "hook failed" (fun w =>
      match find (has_id id) (rows w) with
      | Some p => (w, Resolved {| entity := p; event := "PersonDeleted" |})
      | None => (w, Rejected "not found")
      end)
|}%string.

(** A publisher is the handle it is bound to. *)
Definition demo_factory
  : DomainEventPublisherFactoryInterface string nat nat string Database := {|
  factory_create := fun queryRunner =>
    guarded FactoryFails "no publisher" (fun w => (w, Resolved queryRunner));
  publish := fun _ ev =>
    guarded PublishFails "publish failed" (fun w =>
      (with_outbox (outbox w ++ [ev]) w, Resolved tt))
|}%string.

Definition demo_manager : EntityManager Person nat string Database := {|
  manager_save := fun _ p =>
    guarded SaveFails "constraint violation" (fun w =>
      match person_id p with
      | Some _ =>
          (with_rows (filter (fun q => negb (same_id p q)) (rows w) ++ [p]) w,
           Resolved p)
      | None =>
          let saved := {| person_id := Some (fresh_id (List.length (rows w)));
                          person_name := person_name p |} in
          (with_rows (rows w ++ [saved]) w, Resolved saved)
      end);
  manager_remove := fun _ p =>
    guarded RemoveFails "remove failed" (fun w =>
      (with_rows (filter (fun q => negb (same_id p q)) (rows w)) w, Resolved p))
|}%string.

Definition demo_uow : UnitOfWork nat string Database := {|
  acquire :=
    guarded AcquireFails "no connection" (fun w =>
      ({| faults := faults w; next_runner := S (next_runner w); rows := rows w;
          outbox := outbox w; snapshot := Some (rows w, outbox w) |},
       Resolved (next_runner w)));
  commit := fun _ =>
    guarded CommitFails "commit failed" (fun w =>
      ({| faults := faults w; next_runner := next_runner w; rows := rows w;
          outbox := outbox w; snapshot := None |}, Resolved tt));
  rollback := fun _ =>
    guarded RollbackFails "rollback failed" (fun w =>
      match snapshot w with
      | Some (r, o) =>
          ({| faults := faults w; next_runner := next_runner w; rows := r;
              outbox := o; snapshot := None |}, Resolved tt)
      | None => (w, Resolved tt)
      end)
|}%string.

(** An empty database in which the listed faults are armed. *)
Definition empty (fs : list Fault) : Database :=
  {| faults := fs; next_runner := 7; rows := []; outbox := []; snapshot := None |}.

(** A database that holds the person with id "1". *)
Definition with_one (fs : list Fault) : Database :=
  {| faults := fs; next_runner := 7;
     rows := [{| person_id := Some "1"; person_name := "A" |}];
     outbox := []; snapshot := None |}%string.

(** The service over these collaborators. *)
Definition demo_transaction
  : TypeOrmTransactionInterface Person string string nat nat string Database :=
  UnitOfWorkTransaction demo_uow.

Definition demo_create (data : string) :=
  create (hooks := demo_hooks) (eventPublisherFactory := demo_factory)
    (manager := demo_manager) (transactionService := demo_transaction) data.

Definition demo_update (id data : string) :=
  update (hooks := demo_hooks) (eventPublisherFactory := demo_factory)
    (manager := demo_manager) (transactionService := demo_transaction) id data.

Definition demo_delete (id : string) :=
  delete (hooks := demo_hooks) (eventPublisherFactory := demo_factory)
    (manager := demo_manager) (transactionService := demo_transaction) id.

(** The database once a unit of work has been acquired. *)
Definition begun (w : Database) : Database := fst (acquire (UnitOfWork := demo_uow) w).

End Demo.

(** * Properties *)

(** Unfolds an operation down to the collaborators' calls. *)
Ltac unfold_service :=
  unfold create, update, delete, call_transaction, unawaited,
    create_work, update_work, delete_work, console_log;
  cbn [transaction UnitOfWorkTransaction];
  unfold unit_of_work_transaction, bind, call, lift, attempt, log, ret, throw.

(** Replaces a collaborator's call by the result a hypothesis gives it. *)
Ltac perform H := rewrite H; cbn.

(** Splits on the result of the next collaborator call of the goal. *)
Ltac next_call :=
  match goal with
  | |- context [match ?f ?w with pair _ _ => _ end] =>
      let w' := fresh "w" in
      let E := fresh "E" in
      destruct (f w) as [w' [?|?]] eqn:E; cbn
  end.

(** Checks that every call of an explicit log is made on the handle. *)
Ltac on_this_runner :=
  repeat first [apply Forall_nil | apply Forall_cons]; cbn;
  try reflexivity; try exact I;
  match goal with
  | E : factory_create _ ?w = _ |- exists _, _ => exists w; rewrite E; reflexivity
  end.

(** Closes a branch in which the work function rejected: the manager rolls
    back, so the log holds no commit. *)
Ltac rolled_back :=
  match goal with
  | |- context [rollback ?q ?w] =>
      destruct (rollback q w) as [? [?|?]]; cbn;
      let Hc := fresh "Hc" in
      intros Hc; exfalso; apply Hc; reflexivity
  end.

Section Properties.

Variables EN D : Type.
Variables DomainEventInterface QueryRunner EventPublisher Err World : Type.

Context {hooks : Subclass EN D DomainEventInterface QueryRunner Err World}.
Context {eventPublisherFactory :
  DomainEventPublisherFactoryInterface DomainEventInterface QueryRunner EventPublisher Err World}.
Context {manager : EntityManager EN QueryRunner Err World}.

Local Abbreviation Service := (TypeOrmTransactionInterface EN D DomainEventInterface
                             QueryRunner EventPublisher Err World).
Local Abbreviation MOf := (M EN D DomainEventInterface QueryRunner EventPublisher Err World).

(** ** The monad *)

Lemma bind_ret_r (A : Type) (m : MOf A) (w : World) :
  bind m (fun a => ret a) w = m w.
Proof.
  unfold bind, ret. destruct (m w) as [c w' [a|e]]; cbn.
  - rewrite app_nil_r. reflexivity.
  - reflexivity.
Qed.

(** [create] and [update] hand the promise of [transaction] to the caller as
    it is, whatever the transaction service. *)
Lemma create_is_transaction (tx : Service) (data : D) (w : World) :
  create (transactionService := tx) data w
  = call_transaction (transactionService := tx) (create_work data) w.
Proof. unfold create. apply bind_ret_r. Qed.

Lemma update_is_transaction (tx : Service) (id : string) (data : D) (w : World) :
  update (transactionService := tx) id data w
  = call_transaction (transactionService := tx) (update_work id data) w.
Proof. unfold update. apply bind_ret_r. Qed.

(** ** Under the unit-of-work transaction manager *)

Context {uow : UnitOfWork QueryRunner Err World}.

Local Abbreviation tx := (UnitOfWorkTransaction uow).

(** C2. When the unit of work is acquired and the hook, the factory,
    [publish] and [save] succeed, [create] makes exactly one [publish] call
    and exactly one [save] call, and [publish] comes before [save].  The
    calls are performed: the work function leaves the world that [save]
    left, having saved in the world that [publish] left, and resolves to
    the saved entity; the commit is applied to that world. *)
Theorem create_publishes_once_then_saves_once :
  forall (data : D) (w w1 w2 w3 w4 w5 : World) (queryRunner : QueryRunner)
         (p : EntityAndEventInterface EN DomainEventInterface)
         (eventPublisher : EventPublisher) (saved : EN),
    acquire w = (w1, Resolved queryRunner) ->
    getEntityForCreateAndEvent queryRunner data w1 = (w2, Resolved p) ->
    factory_create queryRunner w2 = (w3, Resolved eventPublisher) ->
    publish eventPublisher (event p) w3 = (w4, Resolved tt) ->
    manager_save queryRunner (entity p) w4 = (w5, Resolved saved) ->
    let r := create (transactionService := tx) data w in
    calls r = [CallTransaction;
               CallGetEntityForCreateAndEvent queryRunner data;
               CallFactoryCreate queryRunner;
               CallPublish eventPublisher (event p);
               CallSave queryRunner (entity p);
               CallCommit queryRunner]
    /\ count_calls is_publish (calls r) = 1
    /\ count_calls is_save (calls r) = 1
    /\ happens_before is_publish is_save (calls r) = true
    /\ create_work data queryRunner w1
       = {| calls := [CallGetEntityForCreateAndEvent queryRunner data;
                      CallFactoryCreate queryRunner;
                      CallPublish eventPublisher (event p);
                      CallSave queryRunner (entity p)];
            final := w5; settled := Resolved saved |}
    /\ final r = fst (commit queryRunner w5)
    /\ settled r = match snd (commit queryRunner w5) with
                   | Resolved _ => Resolved saved
                   | Rejected e => Rejected e
                   end.
Proof.
  intros data w w1 w2 w3 w4 w5 queryRunner p eventPublisher saved
    Hacq Hhook Hfac Hpub Hsave r.
  assert (Hwork : create_work data queryRunner w1
       = {| calls := [CallGetEntityForCreateAndEvent queryRunner data;
                      CallFactoryCreate queryRunner;
                      CallPublish eventPublisher (event p);
                      CallSave queryRunner (entity p)];
            final := w5; settled := Resolved saved |}).
  { unfold_service. perform Hhook. perform Hfac. perform Hpub. perform Hsave.
    reflexivity. }
  assert (Hr : r = {| calls := [CallTransaction;
                                CallGetEntityForCreateAndEvent queryRunner data;
                                CallFactoryCreate queryRunner;
                                CallPublish eventPublisher (event p);
                                CallSave queryRunner (entity p);
                                CallCommit queryRunner];
                      final := fst (commit queryRunner w5);
                      settled := match snd (commit queryRunner w5) with
                                 | Resolved _ => Resolved saved
                                 | Rejected e => Rejected e
                                 end |}).
  { subst r. unfold_service. cbn.
    perform Hacq. perform Hhook. perform Hfac. perform Hpub. perform Hsave.
    next_call; reflexivity. }
  rewrite Hr. cbn. repeat split; try reflexivity. exact Hwork.
Qed.

(** C3. When every collaborator succeeds, [update] makes exactly one [save]
    call and exactly one [publish] call, [save] comes before [publish] (and
    [publish] does not come before [save], as it does in [create]), and the
    promise resolves to the entity that [save] returned. *)
Theorem update_saves_once_then_publishes_once :
  forall (id : string) (data : D) (w w1 w2 w3 w4 w5 w6 : World)
         (queryRunner : QueryRunner)
         (p : EntityAndEventInterface EN DomainEventInterface)
         (eventPublisher : EventPublisher) (saved : EN),
    acquire w = (w1, Resolved queryRunner) ->
    getEntityForUpdateAndEvent queryRunner id data w1 = (w2, Resolved p) ->
    factory_create queryRunner w2 = (w3, Resolved eventPublisher) ->
    manager_save queryRunner (entity p) w3 = (w4, Resolved saved) ->
    publish eventPublisher (event p) w4 = (w5, Resolved tt) ->
    commit queryRunner w5 = (w6, Resolved tt) ->
    let r := update (transactionService := tx) id data w in
    count_calls is_save (calls r) = 1
    /\ count_calls is_publish (calls r) = 1
    /\ happens_before is_save is_publish (calls r) = true
    /\ happens_before is_publish is_save (calls r) = false
    /\ settled r = Resolved saved
    /\ final r = w6.
Proof.
  intros id data w w1 w2 w3 w4 w5 w6 queryRunner p eventPublisher saved
    Hacq Hhook Hfac Hsave Hpub Hcommit r.
  assert (Hr : r = {| calls := [CallTransaction;
                                CallGetEntityForUpdateAndEvent queryRunner id data;
                                CallFactoryCreate queryRunner;
                                CallSave queryRunner (entity p);
                                CallConsoleLog saved;
                                CallPublish eventPublisher (event p);
                                CallCommit queryRunner];
                      final := w6;
                      settled := Resolved saved |}).
  { subst r. unfold_service. cbn.
    perform Hacq. perform Hhook. perform Hfac. perform Hsave. perform Hpub.
    perform Hcommit. reflexivity. }
  rewrite Hr. cbn. repeat split; reflexivity.
Qed.

(** C4. When every collaborator succeeds, [delete] makes exactly one
    [publish] call and exactly one [remove] call, [publish] comes before
    [remove], and the promise of [delete] resolves with no value.  The calls
    are performed: the work function leaves the world that [remove] left,
    having removed in the world that [publish] left, and resolves to what
    [remove] returned; the commit is applied to that world. *)
Theorem delete_publishes_once_then_removes_once :
  forall (id : string) (w w1 w2 w3 w4 w5 : World) (queryRunner : QueryRunner)
         (p : EntityAndEventInterface EN DomainEventInterface)
         (eventPublisher : EventPublisher) (removed : EN),
    acquire w = (w1, Resolved queryRunner) ->
    getEntityForDeleteAndEvent queryRunner id w1 = (w2, Resolved p) ->
    factory_create queryRunner w2 = (w3, Resolved eventPublisher) ->
    publish eventPublisher (event p) w3 = (w4, Resolved tt) ->
    manager_remove queryRunner (entity p) w4 = (w5, Resolved removed) ->
    let r := delete (transactionService := tx) id w in
    calls r = [CallTransaction;
               CallGetEntityForDeleteAndEvent queryRunner id;
               CallFactoryCreate queryRunner;
               CallPublish eventPublisher (event p);
               CallRemove queryRunner (entity p);
               CallCommit queryRunner]
    /\ count_calls is_publish (calls r) = 1
    /\ count_calls is_remove (calls r) = 1
    /\ happens_before is_publish is_remove (calls r) = true
    /\ settled r = Resolved tt
    /\ delete_work id queryRunner w1
       = {| calls := [CallGetEntityForDeleteAndEvent queryRunner id;
                      CallFactoryCreate queryRunner;
                      CallPublish eventPublisher (event p);
                      CallRemove queryRunner (entity p)];
            final := w5; settled := Resolved removed |}
    /\ final r = fst (commit queryRunner w5).
Proof.
  intros id w w1 w2 w3 w4 w5 queryRunner p eventPublisher removed
    Hacq Hhook Hfac Hpub Hrem r.
  assert (Hwork : delete_work id queryRunner w1
       = {| calls := [CallGetEntityForDeleteAndEvent queryRunner id;
                      CallFactoryCreate queryRunner;
                      CallPublish eventPublisher (event p);
                      CallRemove queryRunner (entity p)];
            final := w5; settled := Resolved removed |}).
  { unfold_service. perform Hhook. perform Hfac. perform Hpub. perform Hrem.
    reflexivity. }
  assert (Hr : r = {| calls := [CallTransaction;
                                CallGetEntityForDeleteAndEvent queryRunner id;
                                CallFactoryCreate queryRunner;
                                CallPublish eventPublisher (event p);
                                CallRemove queryRunner (entity p);
                                CallCommit queryRunner];
                      final := fst (commit queryRunner w5);
                      settled := Resolved tt |}).
  { subst r. unfold_service. cbn.
    perform Hacq. perform Hhook. perform Hfac. perform Hpub. perform Hrem.
    next_call; reflexivity. }
  rewrite Hr. cbn. repeat split; try reflexivity. exact Hwork.
Qed.

(** C8. When every collaborator succeeds, [create] resolves to the value
    that [save] returned: whenever that value differs from the entity the
    hook produced, the promise does not resolve to the hook's entity. *)
Theorem create_resolves_to_saved_entity :
  forall (data : D) (w w1 w2 w3 w4 w5 w6 : World) (queryRunner : QueryRunner)
         (p : EntityAndEventInterface EN DomainEventInterface)
         (eventPublisher : EventPublisher) (saved : EN),
    acquire w = (w1, Resolved queryRunner) ->
    getEntityForCreateAndEvent queryRunner data w1 = (w2, Resolved p) ->
    factory_create queryRunner w2 = (w3, Resolved eventPublisher) ->
    publish eventPublisher (event p) w3 = (w4, Resolved tt) ->
    manager_save queryRunner (entity p) w4 = (w5, Resolved saved) ->
    commit queryRunner w5 = (w6, Resolved tt) ->
    settled (create (transactionService := tx) data w) = Resolved saved
    /\ (saved <> entity p ->
        settled (create (transactionService := tx) data w) <> Resolved (entity p)).
Proof.
  intros data w w1 w2 w3 w4 w5 w6 queryRunner p eventPublisher saved
    Hacq Hhook Hfac Hpub Hsave Hcommit.
  assert (Hs : settled (create (transactionService := tx) data w) = Resolved saved).
  { unfold_service. cbn.
    perform Hacq. perform Hhook. perform Hfac. perform Hpub. perform Hsave.
    perform Hcommit. reflexivity. }
  split; [exact Hs|].
  intros Hneq Heq. rewrite Hs in Heq. injection Heq as Heq. auto.
Qed.

(** C6. If the hook rejects, the work function makes no other call (the
    factory, [publish], [save] and [remove] are not called) and rejects with
    the hook's error; the whole invocation is the call of [transaction], the
    hook and the rollback. *)
Theorem hook_rejection_stops_the_work :
  forall (id : string) (data : D) (w w1 : World) (queryRunner : QueryRunner),
    acquire w = (w1, Resolved queryRunner) ->
    (forall (w2 : World) (e : Err),
       getEntityForCreateAndEvent queryRunner data w1 = (w2, Rejected e) ->
       create_work data queryRunner w1
       = {| calls := [CallGetEntityForCreateAndEvent queryRunner data];
            final := w2; settled := Rejected e |}
       /\ calls (create (transactionService := tx) data w)
          = [CallTransaction; CallGetEntityForCreateAndEvent queryRunner data;
             CallRollback queryRunner])
    /\ (forall (w2 : World) (e : Err),
       getEntityForUpdateAndEvent queryRunner id data w1 = (w2, Rejected e) ->
       update_work id data queryRunner w1
       = {| calls := [CallGetEntityForUpdateAndEvent queryRunner id data];
            final := w2; settled := Rejected e |}
       /\ calls (update (transactionService := tx) id data w)
          = [CallTransaction; CallGetEntityForUpdateAndEvent queryRunner id data;
             CallRollback queryRunner])
    /\ (forall (w2 : World) (e : Err),
       getEntityForDeleteAndEvent queryRunner id w1 = (w2, Rejected e) ->
       delete_work id queryRunner w1
       = {| calls := [CallGetEntityForDeleteAndEvent queryRunner id];
            final := w2; settled := Rejected e |}
       /\ calls (delete (transactionService := tx) id w)
          = [CallTransaction; CallGetEntityForDeleteAndEvent queryRunner id;
             CallRollback queryRunner]).
Proof.
  intros id data w w1 queryRunner Hacq.
  split; [|split]; intros w2 e Hhook; split.
  - unfold_service. perform Hhook. reflexivity.
  - unfold_service. cbn. perform Hacq. perform Hhook. next_call; reflexivity.
  - unfold_service. perform Hhook. reflexivity.
  - unfold_service. cbn. perform Hacq. perform Hhook. next_call; reflexivity.
  - unfold_service. perform Hhook. reflexivity.
  - unfold_service. cbn. perform Hacq. perform Hhook. next_call; reflexivity.
Qed.

(** C9. If [publish] rejects: in [create] and in [delete] no [save] or
    [remove] call is made; in [update] the [save] call has been made, inside
    the work function that now rejects.  In each case the transaction
    manager is asked to roll back and never to commit, and the promise of
    [create] and of [update] rejects, with the error of [publish] when the
    rollback succeeds. *)
Theorem publish_rejection_rolls_back :
  forall (id : string) (data : D) (w w1 : World) (queryRunner : QueryRunner),
    acquire w = (w1, Resolved queryRunner) ->
    (forall (w2 w3 w4 : World) (p : EntityAndEventInterface EN DomainEventInterface)
            (eventPublisher : EventPublisher) (e : Err),
     getEntityForCreateAndEvent queryRunner data w1 = (w2, Resolved p) ->
     factory_create queryRunner w2 = (w3, Resolved eventPublisher) ->
     publish eventPublisher (event p) w3 = (w4, Rejected e) ->
     let r := create (transactionService := tx) data w in
     calls r = [CallTransaction; CallGetEntityForCreateAndEvent queryRunner data;
                CallFactoryCreate queryRunner; CallPublish eventPublisher (event p);
                CallRollback queryRunner]
     /\ count_calls is_persist (calls r) = 0
     /\ count_calls is_commit (calls r) = 0
     /\ settled r = match snd (rollback queryRunner w4) with
                    | Resolved _ => Rejected e
                    | Rejected e' => Rejected e'
                    end)
    /\ (forall (w2 w3 w4 : World) (p : EntityAndEventInterface EN DomainEventInterface)
               (eventPublisher : EventPublisher) (e : Err),
     getEntityForDeleteAndEvent queryRunner id w1 = (w2, Resolved p) ->
     factory_create queryRunner w2 = (w3, Resolved eventPublisher) ->
     publish eventPublisher (event p) w3 = (w4, Rejected e) ->
     let r := delete (transactionService := tx) id w in
     calls r = [CallTransaction; CallGetEntityForDeleteAndEvent queryRunner id;
                CallFactoryCreate queryRunner; CallPublish eventPublisher (event p);
                CallRollback queryRunner]
     /\ count_calls is_persist (calls r) = 0
     /\ count_calls is_commit (calls r) = 0)
    /\ (forall (w2 w3 w4 w5 : World) (p : EntityAndEventInterface EN DomainEventInterface)
               (eventPublisher : EventPublisher) (saved : EN) (e : Err),
     getEntityForUpdateAndEvent queryRunner id data w1 = (w2, Resolved p) ->
     factory_create queryRunner w2 = (w3, Resolved eventPublisher) ->
     manager_save queryRunner (entity p) w3 = (w4, Resolved saved) ->
     publish eventPublisher (event p) w4 = (w5, Rejected e) ->
     let r := update (transactionService := tx) id data w in
     settled (update_work id data queryRunner w1) = Rejected e
     /\ calls r = [CallTransaction; CallGetEntityForUpdateAndEvent queryRunner id data;
                   CallFactoryCreate queryRunner; CallSave queryRunner (entity p);
                   CallConsoleLog saved; CallPublish eventPublisher (event p);
                   CallRollback queryRunner]
     /\ count_calls is_commit (calls r) = 0
     /\ settled r = match snd (rollback queryRunner w5) with
                    | Resolved _ => Rejected e
                    | Rejected e' => Rejected e'
                    end).
Proof.
  intros id data w w1 queryRunner Hacq.
  split; [|split].
  - intros w2 w3 w4 p eventPublisher e Hhook Hfac Hpub r.
    assert (Hr : r = {| calls := [CallTransaction;
                                  CallGetEntityForCreateAndEvent queryRunner data;
                                  CallFactoryCreate queryRunner;
                                  CallPublish eventPublisher (event p);
                                  CallRollback queryRunner];
                        final := fst (rollback queryRunner w4);
                        settled := match snd (rollback queryRunner w4) with
                                   | Resolved _ => Rejected e
                                   | Rejected e' => Rejected e'
                                   end |}).
    { subst r. unfold_service. cbn.
      perform Hacq. perform Hhook. perform Hfac. perform Hpub.
      next_call; reflexivity. }
    rewrite Hr. cbn. repeat split; reflexivity.
  - intros w2 w3 w4 p eventPublisher e Hhook Hfac Hpub r.
    assert (Hr : calls r = [CallTransaction;
                            CallGetEntityForDeleteAndEvent queryRunner id;
                            CallFactoryCreate queryRunner;
                            CallPublish eventPublisher (event p);
                            CallRollback queryRunner]).
    { subst r. unfold_service. cbn.
      perform Hacq. perform Hhook. perform Hfac. perform Hpub.
      next_call; reflexivity. }
    rewrite Hr. repeat split; reflexivity.
  - intros w2 w3 w4 w5 p eventPublisher saved e Hhook Hfac Hsave Hpub r.
    assert (Hr : r = {| calls := [CallTransaction;
                                  CallGetEntityForUpdateAndEvent queryRunner id data;
                                  CallFactoryCreate queryRunner;
                                  CallSave queryRunner (entity p);
                                  CallConsoleLog saved;
                                  CallPublish eventPublisher (event p);
                                  CallRollback queryRunner];
                        final := fst (rollback queryRunner w5);
                        settled := match snd (rollback queryRunner w5) with
                                   | Resolved _ => Rejected e
                                   | Rejected e' => Rejected e'
                                   end |}).
    { subst r. unfold_service. cbn.
      perform Hacq. perform Hhook. perform Hfac. perform Hsave. perform Hpub.
      next_call; reflexivity. }
    split.
    + unfold_service. perform Hhook. perform Hfac. perform Hsave. perform Hpub.
      reflexivity.
    + rewrite Hr. cbn. repeat split; reflexivity.
Qed.

(** C5. Whatever the transaction service does with the work function, and
    so whether the hook, [publish], [remove] or the commit succeeds or fails,
    the promise of [delete] resolves with no value: the calls and the effects
    are those of the transaction, its settlement is dropped. *)
Theorem delete_drops_the_transaction_outcome :
  forall (service : Service) (id : string) (w : World),
    let t := call_transaction (transactionService := service) (delete_work id) w in
    let r := delete (transactionService := service) id w in
    settled r = Resolved tt
    /\ calls r = calls t
    /\ final r = final t.
Proof.
  intros service id w t r. subst r. unfold delete, unawaited. fold t.
  destruct t as [c w' o]. cbn. repeat split; reflexivity.
Qed.

(** C10. Once [save] has resolved, [update] writes the saved entity to the
    console, after the [save] call and before the [publish] call, exactly
    once; [create] and [delete] never write to the console, and [update]
    does so at most once. *)
Theorem update_logs_the_saved_entity :
  forall (id : string) (data : D) (w : World),
    (forall (w1 w2 w3 w4 : World) (queryRunner : QueryRunner)
            (p : EntityAndEventInterface EN DomainEventInterface)
            (eventPublisher : EventPublisher) (saved : EN),
        acquire w = (w1, Resolved queryRunner) ->
        getEntityForUpdateAndEvent queryRunner id data w1 = (w2, Resolved p) ->
        factory_create queryRunner w2 = (w3, Resolved eventPublisher) ->
        manager_save queryRunner (entity p) w3 = (w4, Resolved saved) ->
        let r := update (transactionService := tx) id data w in
        (exists last : Call EN D DomainEventInterface QueryRunner EventPublisher,
            calls r = [CallTransaction;
                       CallGetEntityForUpdateAndEvent queryRunner id data;
                       CallFactoryCreate queryRunner;
                       CallSave queryRunner (entity p);
                       CallConsoleLog saved;
                       CallPublish eventPublisher (event p);
                       last]
            /\ is_console_log last = false)
        /\ count_calls is_console_log (calls r) = 1)
    /\ count_calls is_console_log (calls (create (transactionService := tx) data w)) = 0
    /\ count_calls is_console_log (calls (delete (transactionService := tx) id w)) = 0
    /\ count_calls is_console_log (calls (update (transactionService := tx) id data w)) <= 1.
Proof.
  intros id data w. split; [|repeat split].
  - intros w1 w2 w3 w4 queryRunner p eventPublisher saved Hacq Hhook Hfac Hsave r.
    subst r. unfold_service. cbn.
    perform Hacq. perform Hhook. perform Hfac. perform Hsave.
    repeat next_call; (split; [eexists; split; reflexivity | reflexivity]).
  - unfold_service. cbn. repeat next_call; reflexivity.
  - unfold_service. cbn. repeat next_call; reflexivity.
  - unfold_service. cbn. repeat next_call; cbn; lia.
Qed.

(** C7. [create] and [update] hand over the promise of [transaction]
    unchanged, for every transaction service; inside the work function the
    rejection of the hook, of the factory, of [publish] or of [save] is the
    rejection of the work function, with the same error; and the transaction
    manager rejects with the error of the work function, or with the error
    of its own acquisition, commit or rollback. *)
Theorem failures_propagate_unchanged :
  forall (id : string) (data : D),
    (forall (service : Service) (w : World),
        create (transactionService := service) data w
        = call_transaction (transactionService := service) (create_work data) w
        /\ update (transactionService := service) id data w
           = call_transaction (transactionService := service) (update_work id data) w)
    /\ (forall (queryRunner : QueryRunner) (w w1 w2 w3 w4 : World)
               (p : EntityAndEventInterface EN DomainEventInterface)
               (eventPublisher : EventPublisher) (e : Err),
        (getEntityForCreateAndEvent queryRunner data w = (w1, Rejected e) ->
         settled (create_work data queryRunner w) = Rejected e)
        /\ (getEntityForCreateAndEvent queryRunner data w = (w1, Resolved p) ->
            factory_create queryRunner w1 = (w2, Rejected e) ->
            settled (create_work data queryRunner w) = Rejected e)
        /\ (getEntityForCreateAndEvent queryRunner data w = (w1, Resolved p) ->
            factory_create queryRunner w1 = (w2, Resolved eventPublisher) ->
            publish eventPublisher (event p) w2 = (w3, Rejected e) ->
            settled (create_work data queryRunner w) = Rejected e)
        /\ (getEntityForCreateAndEvent queryRunner data w = (w1, Resolved p) ->
            factory_create queryRunner w1 = (w2, Resolved eventPublisher) ->
            publish eventPublisher (event p) w2 = (w3, Resolved tt) ->
            manager_save queryRunner (entity p) w3 = (w4, Rejected e) ->
            settled (create_work data queryRunner w) = Rejected e))
    /\ (forall (queryRunner : QueryRunner) (w w1 w2 w3 w4 : World)
               (p : EntityAndEventInterface EN DomainEventInterface)
               (eventPublisher : EventPublisher) (saved : EN) (e : Err),
        (getEntityForUpdateAndEvent queryRunner id data w = (w1, Rejected e) ->
         settled (update_work id data queryRunner w) = Rejected e)
        /\ (getEntityForUpdateAndEvent queryRunner id data w = (w1, Resolved p) ->
            factory_create queryRunner w1 = (w2, Rejected e) ->
            settled (update_work id data queryRunner w) = Rejected e)
        /\ (getEntityForUpdateAndEvent queryRunner id data w = (w1, Resolved p) ->
            factory_create queryRunner w1 = (w2, Resolved eventPublisher) ->
            manager_save queryRunner (entity p) w2 = (w3, Rejected e) ->
            settled (update_work id data queryRunner w) = Rejected e)
        /\ (getEntityForUpdateAndEvent queryRunner id data w = (w1, Resolved p) ->
            factory_create queryRunner w1 = (w2, Resolved eventPublisher) ->
            manager_save queryRunner (entity p) w2 = (w3, Resolved saved) ->
            publish eventPublisher (event p) w3 = (w4, Rejected e) ->
            settled (update_work id data queryRunner w) = Rejected e))
    /\ (forall (work : QueryRunner -> MOf EN) (w w1 w2 : World)
               (queryRunner : QueryRunner) (v : EN) (e e' : Err),
        let t := call_transaction (transactionService := tx) work w in
        (acquire w = (w1, Rejected e) -> settled t = Rejected e)
        /\ (acquire w = (w1, Resolved queryRunner) ->
            settled (work queryRunner w1) = Rejected e ->
            rollback queryRunner (final (work queryRunner w1)) = (w2, Resolved tt) ->
            settled t = Rejected e)
        /\ (acquire w = (w1, Resolved queryRunner) ->
            settled (work queryRunner w1) = Rejected e' ->
            rollback queryRunner (final (work queryRunner w1)) = (w2, Rejected e) ->
            settled t = Rejected e)
        /\ (acquire w = (w1, Resolved queryRunner) ->
            settled (work queryRunner w1) = Resolved v ->
            commit queryRunner (final (work queryRunner w1)) = (w2, Rejected e) ->
            settled t = Rejected e)).
Proof.
  intros id data. split; [|split; [|split]].
  - intros service w. split.
    + apply create_is_transaction.
    + apply update_is_transaction.
  - intros queryRunner w w1 w2 w3 w4 p eventPublisher e.
    repeat split.
    + intros Hhook. unfold_service. perform Hhook. reflexivity.
    + intros Hhook Hfac. unfold_service. perform Hhook. perform Hfac. reflexivity.
    + intros Hhook Hfac Hpub. unfold_service.
      perform Hhook. perform Hfac. perform Hpub. reflexivity.
    + intros Hhook Hfac Hpub Hsave. unfold_service.
      perform Hhook. perform Hfac. perform Hpub. perform Hsave. reflexivity.
  - intros queryRunner w w1 w2 w3 w4 p eventPublisher saved e.
    repeat split.
    + intros Hhook. unfold_service. perform Hhook. reflexivity.
    + intros Hhook Hfac. unfold_service. perform Hhook. perform Hfac. reflexivity.
    + intros Hhook Hfac Hsave. unfold_service.
      perform Hhook. perform Hfac. perform Hsave. reflexivity.
    + intros Hhook Hfac Hsave Hpub. unfold_service.
      perform Hhook. perform Hfac. perform Hsave. perform Hpub. reflexivity.
  - intros work w w1 w2 queryRunner v e e' t. subst t.
    repeat split.
    + intros Hacq. unfold_service. cbn. perform Hacq. reflexivity.
    + intros Hacq Hwork Hrb. unfold_service. cbn. perform Hacq.
      destruct (work queryRunner w1) as [c wf o]. cbn in Hwork, Hrb. subst o.
      cbn. perform Hrb. reflexivity.
    + intros Hacq Hwork Hrb. unfold_service. cbn. perform Hacq.
      destruct (work queryRunner w1) as [c wf o]. cbn in Hwork, Hrb. subst o.
      cbn. perform Hrb. reflexivity.
    + intros Hacq Hwork Hc. unfold_service. cbn. perform Hacq.
      destruct (work queryRunner w1) as [c wf o]. cbn in Hwork, Hc. subst o.
      cbn. perform Hc. reflexivity.
Qed.

(** C1. In every invocation of [create], [update] and [delete] the only
    thing the method itself calls is [transaction], once, with its work
    function; under the unit-of-work manager the [publish] call and the
    [save] or [remove] call are calls of that work function, made on the
    handle the manager supplied (the publisher is the one the factory built
    for that handle).  Neither effect is committed without the other: if a
    commit is asked for, then [publish] and [save] (or [remove]) were both
    applied, each to the world the call before it left, both resolved, and
    the commit is applied to the world they left. *)
Theorem mutation_and_event_in_one_transaction :
  forall (id : string) (data : D) (w : World),
    (forall service : Service,
        calls (create (transactionService := service) data w)
        = calls (call_transaction (transactionService := service) (create_work data) w)
        /\ calls (update (transactionService := service) id data w)
           = calls (call_transaction (transactionService := service) (update_work id data) w)
        /\ calls (delete (transactionService := service) id w)
           = calls (call_transaction (transactionService := service) (delete_work id) w))
    /\ in_one_transaction (create_work data) w
         (calls (create (transactionService := tx) data w))
    /\ in_one_transaction (update_work id data) w
         (calls (update (transactionService := tx) id data w))
    /\ in_one_transaction (delete_work id) w
         (calls (delete (transactionService := tx) id w))
    /\ (forall (w1 : World) (queryRunner : QueryRunner),
        acquire w = (w1, Resolved queryRunner) ->
        let r := create (transactionService := tx) data w in
        count_calls is_commit (calls r) <> 0 ->
        exists (p : EntityAndEventInterface EN DomainEventInterface)
               (eventPublisher : EventPublisher) (saved : EN) (w2 w3 w4 w5 : World),
          getEntityForCreateAndEvent queryRunner data w1 = (w2, Resolved p)
          /\ factory_create queryRunner w2 = (w3, Resolved eventPublisher)
          /\ publish eventPublisher (event p) w3 = (w4, Resolved tt)
          /\ manager_save queryRunner (entity p) w4 = (w5, Resolved saved)
          /\ create_work data queryRunner w1
             = {| calls := [CallGetEntityForCreateAndEvent queryRunner data;
                            CallFactoryCreate queryRunner;
                            CallPublish eventPublisher (event p);
                            CallSave queryRunner (entity p)];
                  final := w5; settled := Resolved saved |}
          /\ final r = fst (commit queryRunner w5))
    /\ (forall (w1 : World) (queryRunner : QueryRunner),
        acquire w = (w1, Resolved queryRunner) ->
        let r := update (transactionService := tx) id data w in
        count_calls is_commit (calls r) <> 0 ->
        exists (p : EntityAndEventInterface EN DomainEventInterface)
               (eventPublisher : EventPublisher) (saved : EN) (w2 w3 w4 w5 : World),
          getEntityForUpdateAndEvent queryRunner id data w1 = (w2, Resolved p)
          /\ factory_create queryRunner w2 = (w3, Resolved eventPublisher)
          /\ manager_save queryRunner (entity p) w3 = (w4, Resolved saved)
          /\ publish eventPublisher (event p) w4 = (w5, Resolved tt)
          /\ update_work id data queryRunner w1
             = {| calls := [CallGetEntityForUpdateAndEvent queryRunner id data;
                            CallFactoryCreate queryRunner;
                            CallSave queryRunner (entity p);
                            CallConsoleLog saved;
                            CallPublish eventPublisher (event p)];
                  final := w5; settled := Resolved saved |}
          /\ final r = fst (commit queryRunner w5))
    /\ (forall (w1 : World) (queryRunner : QueryRunner),
        acquire w = (w1, Resolved queryRunner) ->
        let r := delete (transactionService := tx) id w in
        count_calls is_commit (calls r) <> 0 ->
        exists (p : EntityAndEventInterface EN DomainEventInterface)
               (eventPublisher : EventPublisher) (removed : EN) (w2 w3 w4 w5 : World),
          getEntityForDeleteAndEvent queryRunner id w1 = (w2, Resolved p)
          /\ factory_create queryRunner w2 = (w3, Resolved eventPublisher)
          /\ publish eventPublisher (event p) w3 = (w4, Resolved tt)
          /\ manager_remove queryRunner (entity p) w4 = (w5, Resolved removed)
          /\ delete_work id queryRunner w1
             = {| calls := [CallGetEntityForDeleteAndEvent queryRunner id;
                            CallFactoryCreate queryRunner;
                            CallPublish eventPublisher (event p);
                            CallRemove queryRunner (entity p)];
                  final := w5; settled := Resolved removed |}
          /\ final r = fst (commit queryRunner w5)).
Proof.
  intros id data w. split; [|split; [|split; [|split; [|split; [|split]]]]].
  - intros service. repeat split.
    + rewrite create_is_transaction. reflexivity.
    + rewrite update_is_transaction. reflexivity.
    + unfold delete, unawaited.
      destruct (call_transaction (delete_work id) w); reflexivity.
  - unfold in_one_transaction. split; [|split].
    + unfold_service. cbn. repeat next_call; reflexivity.
    + intros w1 e Hacq. unfold_service. cbn. perform Hacq. reflexivity.
    + intros w1 queryRunner Hacq. cbv zeta. unfold_service. cbn. perform Hacq.
      repeat next_call; eexists; (split; [reflexivity|]);
        (split; [auto|]);
        (split; [on_this_runner | cbn; intros; try discriminate; eauto]).
  - unfold in_one_transaction. split; [|split].
    + unfold_service. cbn. repeat next_call; reflexivity.
    + intros w1 e Hacq. unfold_service. cbn. perform Hacq. reflexivity.
    + intros w1 queryRunner Hacq. cbv zeta. unfold_service. cbn. perform Hacq.
      repeat next_call; eexists; (split; [reflexivity|]);
        (split; [auto|]);
        (split; [on_this_runner | cbn; intros; try discriminate; eauto]).
  - unfold in_one_transaction. split; [|split].
    + unfold_service. cbn. repeat next_call; reflexivity.
    + intros w1 e Hacq. unfold_service. cbn. perform Hacq. reflexivity.
    + intros w1 queryRunner Hacq. cbv zeta. unfold_service. cbn. perform Hacq.
      repeat next_call; eexists; (split; [reflexivity|]);
        (split; [auto|]);
        (split; [on_this_runner | cbn; intros; try discriminate; eauto]).
  - intros w1 queryRunner Hacq. cbv zeta. unfold_service. cbn. perform Hacq.
    destruct (getEntityForCreateAndEvent queryRunner data w1)
      as [w2 [p|?]] eqn:Hhook; cbn; [|rolled_back].
    destruct (factory_create queryRunner w2)
      as [w3 [eventPublisher|?]] eqn:Hfac; cbn; [|rolled_back].
    destruct (publish eventPublisher (event p) w3)
      as [w4 [[]|?]] eqn:Hpub; cbn; [|rolled_back].
    destruct (manager_save queryRunner (entity p) w4)
      as [w5 [saved|?]] eqn:Hsave; cbn; [|rolled_back].
    destruct (commit queryRunner w5) as [w6 [[]|?]] eqn:Hcommit; cbn; intros _;
      exists p, eventPublisher, saved, w2, w3, w4, w5;
      rewrite ?Hcommit; repeat split; first [assumption | reflexivity].
  - intros w1 queryRunner Hacq. cbv zeta. unfold_service. cbn. perform Hacq.
    destruct (getEntityForUpdateAndEvent queryRunner id data w1)
      as [w2 [p|?]] eqn:Hhook; cbn; [|rolled_back].
    destruct (factory_create queryRunner w2)
      as [w3 [eventPublisher|?]] eqn:Hfac; cbn; [|rolled_back].
    destruct (manager_save queryRunner (entity p) w3)
      as [w4 [saved|?]] eqn:Hsave; cbn; [|rolled_back].
    destruct (publish eventPublisher (event p) w4)
      as [w5 [[]|?]] eqn:Hpub; cbn; [|rolled_back].
    destruct (commit queryRunner w5) as [w6 [[]|?]] eqn:Hcommit; cbn; intros _;
      exists p, eventPublisher, saved, w2, w3, w4, w5;
      rewrite ?Hcommit; repeat split; first [assumption | reflexivity].
  - intros w1 queryRunner Hacq. cbv zeta. unfold_service. cbn. perform Hacq.
    destruct (getEntityForDeleteAndEvent queryRunner id w1)
      as [w2 [p|?]] eqn:Hhook; cbn; [|rolled_back].
    destruct (factory_create queryRunner w2)
      as [w3 [eventPublisher|?]] eqn:Hfac; cbn; [|rolled_back].
    destruct (publish eventPublisher (event p) w3)
      as [w4 [[]|?]] eqn:Hpub; cbn; [|rolled_back].
    destruct (manager_remove queryRunner (entity p) w4)
      as [w5 [removed|?]] eqn:Hrem; cbn; [|rolled_back].
    destruct (commit queryRunner w5) as [w6 [[]|?]] eqn:Hcommit; cbn; intros _;
      exists p, eventPublisher, removed, w2, w3, w4, w5;
      rewrite ?Hcommit; repeat split; first [assumption | reflexivity].
Qed.

End Properties.

(** * The properties on the in-memory service *)

Local Open Scope string_scope.

(** Creating "A" in an empty database: the hook's entity has no id, [save]
    returns it with the id "1". *)
Lemma create_publishes_once_then_saves_once_witness :
  let r := Demo.demo_create "A" (Demo.empty []) in
  calls r = [CallTransaction;
             CallGetEntityForCreateAndEvent 7 "A";
             CallFactoryCreate 7;
             CallPublish 7 "PersonCreated";
             CallSave 7 {| Demo.person_id := None; Demo.person_name := "A" |};
             CallCommit 7]
  /\ count_calls is_publish (calls r) = 1
  /\ count_calls is_save (calls r) = 1
  /\ happens_before is_publish is_save (calls r) = true
  /\ Demo.rows (final r) = [{| Demo.person_id := Some "1"; Demo.person_name := "A" |}]
  /\ Demo.outbox (final r) = ["PersonCreated"]
  /\ settled r = Resolved {| Demo.person_id := Some "1"; Demo.person_name := "A" |}.
Proof.
  pose (w1 := Demo.begun (Demo.empty [])).
  pose (w4 := Demo.with_outbox ["PersonCreated"] w1).
  pose (saved := {| Demo.person_id := Some "1"; Demo.person_name := "A" |}).
  destruct (@create_publishes_once_then_saves_once _ _ _ _ _ _ _
              Demo.demo_hooks Demo.demo_factory Demo.demo_manager Demo.demo_uow
              "A" (Demo.empty []) w1 w1 w1 w4 (Demo.with_rows [saved] w4) 7
              {| entity := {| Demo.person_id := None; Demo.person_name := "A" |};
                 event := "PersonCreated" |}
              7 saved
              eq_refl eq_refl eq_refl eq_refl eq_refl)
    as (Hcalls & Hpub & Hsave & Horder & _ & Hfinal & Hsettled).
  exact (conj Hcalls (conj Hpub (conj Hsave (conj Horder
           (conj (f_equal Demo.rows Hfinal)
              (conj (f_equal Demo.outbox Hfinal) Hsettled)))))).
Defined.

(** Updating the person "1" to the name "B": [save] returns the entity the
    hook produced, and the promise resolves to it. *)
Lemma update_saves_once_then_publishes_once_witness :
  let r := Demo.demo_update "1" "B" (Demo.with_one []) in
  count_calls is_save (calls r) = 1
  /\ count_calls is_publish (calls r) = 1
  /\ happens_before is_save is_publish (calls r) = true
  /\ happens_before is_publish is_save (calls r) = false
  /\ settled r = Resolved {| Demo.person_id := Some "1"; Demo.person_name := "B" |}.
Proof.
  pose (w1 := Demo.begun (Demo.with_one [])).
  pose (saved := {| Demo.person_id := Some "1"; Demo.person_name := "B" |}).
  pose (w4 := Demo.with_rows [saved] w1).
  pose (w5 := Demo.with_outbox ["PersonUpdated"] w4).
  pose (w6 := fst (commit (UnitOfWork := Demo.demo_uow) 7 w5)).
  destruct (@update_saves_once_then_publishes_once _ _ _ _ _ _ _
              Demo.demo_hooks Demo.demo_factory Demo.demo_manager Demo.demo_uow
              "1" "B" (Demo.with_one []) w1 w1 w1 w4 w5 w6 7
              {| entity := saved; event := "PersonUpdated" |} 7 saved
              eq_refl eq_refl eq_refl eq_refl eq_refl eq_refl)
    as (Hsave & Hpub & Hbefore & Hnot & Hsettled & _).
  exact (conj Hsave (conj Hpub (conj Hbefore (conj Hnot Hsettled)))).
Defined.

(** Deleting the person "1": the event is published, then the row is
    removed, and the promise resolves with no value. *)
Lemma delete_publishes_once_then_removes_once_witness :
  let r := Demo.demo_delete "1" (Demo.with_one []) in
  calls r = [CallTransaction;
             CallGetEntityForDeleteAndEvent 7 "1";
             CallFactoryCreate 7;
             CallPublish 7 "PersonDeleted";
             CallRemove 7 {| Demo.person_id := Some "1"; Demo.person_name := "A" |};
             CallCommit 7]
  /\ count_calls is_publish (calls r) = 1
  /\ count_calls is_remove (calls r) = 1
  /\ happens_before is_publish is_remove (calls r) = true
  /\ settled r = Resolved tt
  /\ Demo.rows (final r) = []
  /\ Demo.outbox (final r) = ["PersonDeleted"].
Proof.
  pose (w1 := Demo.begun (Demo.with_one [])).
  pose (w4 := Demo.with_outbox ["PersonDeleted"] w1).
  pose (person := {| Demo.person_id := Some "1"; Demo.person_name := "A" |}).
  destruct (@delete_publishes_once_then_removes_once _ _ _ _ _ _ _
              Demo.demo_hooks Demo.demo_factory Demo.demo_manager Demo.demo_uow
              "1" (Demo.with_one []) w1 w1 w1 w4 (Demo.with_rows [] w4) 7
              {| entity := person; event := "PersonDeleted" |} 7 person
              eq_refl eq_refl eq_refl eq_refl eq_refl)
    as (Hcalls & Hpub & Hrem & Horder & Hsettled & _ & Hfinal).
  exact (conj Hcalls (conj Hpub (conj Hrem (conj Horder (conj Hsettled
           (conj (f_equal Demo.rows Hfinal) (f_equal Demo.outbox Hfinal))))))).
Defined.

(** The hook returns a person without an id, [save] returns that person
    with the generated id "1": [create] resolves to the latter. *)
Lemma create_resolves_to_saved_entity_witness :
  settled (Demo.demo_create "A" (Demo.empty []))
  = Resolved {| Demo.person_id := Some "1"; Demo.person_name := "A" |}
  /\ settled (Demo.demo_create "A" (Demo.empty []))
     <> Resolved {| Demo.person_id := None; Demo.person_name := "A" |}.
Proof.
  pose (w1 := Demo.begun (Demo.empty [])).
  pose (w4 := Demo.with_outbox ["PersonCreated"] w1).
  pose (saved := {| Demo.person_id := Some "1"; Demo.person_name := "A" |}).
  pose (w5 := Demo.with_rows [saved] w4).
  pose (w6 := fst (commit (UnitOfWork := Demo.demo_uow) 7 w5)).
  destruct (@create_resolves_to_saved_entity _ _ _ _ _ _ _
              Demo.demo_hooks Demo.demo_factory Demo.demo_manager Demo.demo_uow
              "A" (Demo.empty []) w1 w1 w1 w4 w5 w6 7
              {| entity := {| Demo.person_id := None; Demo.person_name := "A" |};
                 event := "PersonCreated" |}
              7 saved
              eq_refl eq_refl eq_refl eq_refl eq_refl eq_refl)
    as [Hsaved Hnot].
  split.
  - exact Hsaved.
  - apply Hnot. discriminate.
Defined.

(** The three hooks reject with "hook failed" (the fault is armed): each
    invocation is the call of [transaction], the hook and the rollback. *)
Lemma hook_rejection_stops_the_work_witness :
  calls (Demo.demo_create "A" (Demo.with_one [Demo.HookFails]))
  = [CallTransaction; CallGetEntityForCreateAndEvent 7 "A"; CallRollback 7]
  /\ calls (Demo.demo_update "1" "B" (Demo.with_one [Demo.HookFails]))
     = [CallTransaction; CallGetEntityForUpdateAndEvent 7 "1" "B"; CallRollback 7]
  /\ calls (Demo.demo_delete "1" (Demo.with_one [Demo.HookFails]))
     = [CallTransaction; CallGetEntityForDeleteAndEvent 7 "1"; CallRollback 7].
Proof.
  pose (w1 := Demo.begun (Demo.with_one [Demo.HookFails])).
  destruct (@hook_rejection_stops_the_work _ _ _ _ _ _ _
              Demo.demo_hooks Demo.demo_factory Demo.demo_manager Demo.demo_uow
              "1" "B" (Demo.with_one [Demo.HookFails]) w1 7 eq_refl)
    as (Hcreate & Hupdate & Hdelete).
  split; [|split].
  - pose proof (@hook_rejection_stops_the_work _ _ _ _ _ _ _
              Demo.demo_hooks Demo.demo_factory Demo.demo_manager Demo.demo_uow
              "1" "A" (Demo.with_one [Demo.HookFails]) w1 7 eq_refl) as (H & _).
    exact (proj2 (H w1 "hook failed" eq_refl)).
  - exact (proj2 (Hupdate w1 "hook failed" eq_refl)).
  - exact (proj2 (Hdelete w1 "hook failed" eq_refl)).
Defined.

(** [publish] rejects (the fault is armed).  In [create] and [delete] the
    entity manager is never called; in [update] the row has been saved when
    [publish] rejects, and the rollback restores the table. *)
Lemma publish_rejection_rolls_back_witness :
  let w := Demo.with_one [Demo.PublishFails] in
  (count_calls is_persist (calls (Demo.demo_create "A" w)) = 0
   /\ settled (Demo.demo_create "A" w) = Rejected "publish failed")
  /\ count_calls is_persist (calls (Demo.demo_delete "1" w)) = 0
  /\ (calls (Demo.demo_update "1" "B" w)
      = [CallTransaction; CallGetEntityForUpdateAndEvent 7 "1" "B";
         CallFactoryCreate 7;
         CallSave 7 {| Demo.person_id := Some "1"; Demo.person_name := "B" |};
         CallConsoleLog {| Demo.person_id := Some "1"; Demo.person_name := "B" |};
         CallPublish 7 "PersonUpdated";
         CallRollback 7]
      /\ settled (Demo.demo_update "1" "B" w) = Rejected "publish failed").
Proof.
  intros w.
  pose (w1 := Demo.begun w).
  pose (person := {| Demo.person_id := Some "1"; Demo.person_name := "A" |}).
  pose (saved := {| Demo.person_id := Some "1"; Demo.person_name := "B" |}).
  pose (w4 := Demo.with_rows [saved] w1).
  destruct (@publish_rejection_rolls_back _ _ _ _ _ _ _
              Demo.demo_hooks Demo.demo_factory Demo.demo_manager Demo.demo_uow
              "1" "A" w w1 7 eq_refl) as (Hcreate & Hdelete & _).
  destruct (@publish_rejection_rolls_back _ _ _ _ _ _ _
              Demo.demo_hooks Demo.demo_factory Demo.demo_manager Demo.demo_uow
              "1" "B" w w1 7 eq_refl) as (_ & _ & Hupdate).
  destruct (Hcreate w1 w1 w1
              {| entity := {| Demo.person_id := None; Demo.person_name := "A" |};
                 event := "PersonCreated" |}
              7 "publish failed" eq_refl eq_refl eq_refl)
    as (_ & Hc1 & _ & Hc2).
  destruct (Hdelete w1 w1 w1 {| entity := person; event := "PersonDeleted" |}
              7 "publish failed" eq_refl eq_refl eq_refl)
    as (_ & Hd & _).
  destruct (Hupdate w1 w1 w4 w4 {| entity := saved; event := "PersonUpdated" |}
              7 saved "publish failed" eq_refl eq_refl eq_refl eq_refl)
    as (_ & Hu1 & _ & Hu2).
  exact (conj (conj Hc1 Hc2) (conj Hd (conj Hu1 Hu2))).
Defined.

(** Updating the person "1": the saved entity is written to the console
    between the [save] call and the [publish] call. *)
Lemma update_logs_the_saved_entity_witness :
  let r := Demo.demo_update "1" "B" (Demo.with_one []) in
  (exists last,
      calls r = [CallTransaction; CallGetEntityForUpdateAndEvent 7 "1" "B";
                 CallFactoryCreate 7;
                 CallSave 7 {| Demo.person_id := Some "1"; Demo.person_name := "B" |};
                 CallConsoleLog {| Demo.person_id := Some "1"; Demo.person_name := "B" |};
                 CallPublish 7 "PersonUpdated";
                 last]
      /\ is_console_log last = false)
  /\ count_calls is_console_log (calls r) = 1.
Proof.
  pose (w1 := Demo.begun (Demo.with_one [])).
  pose (saved := {| Demo.person_id := Some "1"; Demo.person_name := "B" |}).
  exact (proj1 (@update_logs_the_saved_entity _ _ _ _ _ _ _
                  Demo.demo_hooks Demo.demo_factory Demo.demo_manager Demo.demo_uow
                  "1" "B" (Demo.with_one []))
           w1 w1 w1 (Demo.with_rows [saved] w1) 7
           {| entity := saved; event := "PersonUpdated" |} 7 saved
           eq_refl eq_refl eq_refl eq_refl).
Defined.

(** [save] rejects with "constraint violation" in [create], and the caller
    of [create] receives that error: the work function rejects with it, the
    manager rolls back and rejects with it, and [create] hands that promise
    over. *)
Lemma failures_propagate_unchanged_witness :
  settled (Demo.demo_create "A" (Demo.empty [Demo.SaveFails]))
  = Rejected "constraint violation"
  /\ settled (Demo.demo_update "2" "B" (Demo.with_one [])) = Rejected "not found".
Proof.
  destruct (@failures_propagate_unchanged _ _ _ _ _ _ _
              Demo.demo_hooks Demo.demo_factory Demo.demo_manager Demo.demo_uow
              "2" "A") as (Hsame & Hwork & _ & Hmanager).
  destruct (@failures_propagate_unchanged _ _ _ _ _ _ _
              Demo.demo_hooks Demo.demo_factory Demo.demo_manager Demo.demo_uow
              "2" "B") as (Hsame' & _ & Hwork' & _).
  split.
  - pose (w := Demo.empty [Demo.SaveFails]).
    pose (w1 := Demo.begun w).
    pose (w3 := Demo.with_outbox ["PersonCreated"] w1).
    pose (p := {| entity := {| Demo.person_id := None; Demo.person_name := "A" |};
                  event := "PersonCreated" |}).
    destruct (Hwork 7 w1 w1 w1 w3 w3 p 7 "constraint violation")
      as (_ & _ & _ & Hsave).
    destruct (Hmanager (create_work (hooks := Demo.demo_hooks)
                          (eventPublisherFactory := Demo.demo_factory)
                          (manager := Demo.demo_manager) "A")
                w w1 (fst (rollback (UnitOfWork := Demo.demo_uow) 7 w3)) 7
                {| Demo.person_id := None; Demo.person_name := "A" |}
                "constraint violation" "constraint violation")
      as (_ & Hrollback & _).
    exact (eq_trans
             (f_equal (fun r => settled r) (proj1 (Hsame Demo.demo_transaction w)))
             (Hrollback eq_refl (Hsave eq_refl eq_refl eq_refl eq_refl) eq_refl)).
  - pose (w := Demo.with_one []).
    pose (w1 := Demo.begun w).
    destruct (Hwork' 7 w1 w1 w1 w1 w1
                {| entity := {| Demo.person_id := None; Demo.person_name := "A" |};
                   event := "" |}
                7 {| Demo.person_id := None; Demo.person_name := "A" |} "not found")
      as (Hhook & _).
    destruct (Hmanager (update_work (hooks := Demo.demo_hooks)
                          (eventPublisherFactory := Demo.demo_factory)
                          (manager := Demo.demo_manager) "2" "B")
                w w1 (fst (rollback (UnitOfWork := Demo.demo_uow) 7 w1)) 7
                {| Demo.person_id := None; Demo.person_name := "A" |}
                "not found" "not found")
      as (_ & Hrollback & _).
    exact (eq_trans
             (f_equal (fun r => settled r) (proj2 (Hsame' Demo.demo_transaction w)))
             (Hrollback eq_refl (Hhook eq_refl) eq_refl)).
Defined.

(** The log of creating "A" is the call of [transaction], the calls of the
    work function on the handle 7, and the commit on that handle; and since
    a commit was asked for, [save] resolved in the world [publish] left and
    the commit was applied to the world [save] left. *)
Lemma mutation_and_event_in_one_transaction_witness :
  (exists closing,
      calls (Demo.demo_create "A" (Demo.empty []))
      = CallTransaction
          :: calls (create_work (hooks := Demo.demo_hooks)
                      (eventPublisherFactory := Demo.demo_factory)
                      (manager := Demo.demo_manager) "A" 7 (Demo.begun (Demo.empty [])))
          ++ [closing]
      /\ (closing = CallCommit 7 \/ closing = CallRollback 7))
  /\ exists saved w5,
       manager_save (EntityManager := Demo.demo_manager) 7
         {| Demo.person_id := None; Demo.person_name := "A" |}
         (Demo.with_outbox ["PersonCreated"] (Demo.begun (Demo.empty [])))
       = (w5, Resolved saved)
       /\ final (Demo.demo_create "A" (Demo.empty []))
          = fst (commit (UnitOfWork := Demo.demo_uow) 7 w5).
Proof.
  destruct (@mutation_and_event_in_one_transaction _ _ _ _ _ _ _
              Demo.demo_hooks Demo.demo_factory Demo.demo_manager Demo.demo_uow
              "1" "A" (Demo.empty []))
    as (_ & (_ & _ & Hcreate) & _ & _ & Hcommitted & _).
  split.
  - destruct (Hcreate (Demo.begun (Demo.empty [])) 7 eq_refl)
      as (closing & Hcalls & Hclosing & _).
    exists closing. split; assumption.
  - destruct (Hcommitted (Demo.begun (Demo.empty [])) 7 eq_refl (Nat.neq_succ_0 0))
      as (p & eventPublisher & saved & w2 & w3 & w4 & w5
          & Hhook & Hfac & Hpub & Hsave & _ & Hfinal).
    cbv in Hhook. injection Hhook as <- <-.
    cbv in Hfac. injection Hfac as <- <-.
    cbv in Hpub. injection Hpub as <-.
    exists saved, w5. split; [exact Hsave | exact Hfinal].
Defined.

(** ** Runs of the in-memory service *)

(** The remove fails inside the transaction of [delete]: the manager rolls back
    and its promise rejects, yet the promise of [delete] resolves. *)
Example delete_resolves_although_remove_rejects :
  let w := Demo.with_one [Demo.RemoveFails] in
  settled (call_transaction (transactionService := Demo.demo_transaction)
             (delete_work (hooks := Demo.demo_hooks)
                (eventPublisherFactory := Demo.demo_factory)
                (manager := Demo.demo_manager) "1") w)
  = Rejected "remove failed"
  /\ Demo.demo_delete "1" w
     = {| calls := [CallTransaction; CallGetEntityForDeleteAndEvent 7 "1";
                    CallFactoryCreate 7; CallPublish 7 "PersonDeleted";
                    CallRemove 7 {| Demo.person_id := Some "1"; Demo.person_name := "A" |};
                    CallRollback 7];
          final := {| Demo.faults := [Demo.RemoveFails]; Demo.next_runner := 8;
                      Demo.rows := [{| Demo.person_id := Some "1";
                                       Demo.person_name := "A" |}];
                      Demo.outbox := []; Demo.snapshot := None |};
          settled := Resolved tt |}.
Proof. split; reflexivity. Qed.

(** Updating a person that does not exist: the hook rejects with "not
    found", nothing is saved or published, and [update] rejects with that
    error. *)
Example update_of_a_missing_person :
  Demo.demo_update "2" "B" (Demo.with_one [])
  = {| calls := [CallTransaction; CallGetEntityForUpdateAndEvent 7 "2" "B";
                 CallRollback 7];
       final := {| Demo.faults := []; Demo.next_runner := 8;
                   Demo.rows := [{| Demo.person_id := Some "1";
                                    Demo.person_name := "A" |}];
                   Demo.outbox := []; Demo.snapshot := None |};
       settled := Rejected "not found" |}.
Proof. reflexivity. Qed.

(** A rollback that fails masks the error of the work function: the caller
    receives the error of the rollback. *)
Example create_when_save_and_rollback_fail :
  settled (Demo.demo_create "A" (Demo.empty [Demo.SaveFails; Demo.RollbackFails]))
  = Rejected "rollback failed".
Proof. reflexivity. Qed.

(** * Further properties of the three operations *)

(** Chooses the case of a disjunction that the equations at hand prove. *)
Ltac pick :=
  repeat match goal with u : unit |- _ => destruct u end;
  cbn;
  repeat match goal with
         | E : ?f = (_, _) |- context [?f] => rewrite E; cbn
         end;
  lazymatch goal with
  | |- _ \/ _ => first [solve [left; pick] | solve [right; pick]]
  | |- exists _, _ => eexists; pick
  | |- _ /\ _ => split; [pick | pick]
  | |- _ => first [eassumption | reflexivity]
  end.

Section FurtherProperties.

Variables EN D : Type.
Variables DomainEventInterface QueryRunner EventPublisher Err World : Type.

Context {hooks : Subclass EN D DomainEventInterface QueryRunner Err World}.
Context {eventPublisherFactory :
  DomainEventPublisherFactoryInterface DomainEventInterface QueryRunner EventPublisher Err World}.
Context {manager : EntityManager EN QueryRunner Err World}.
Context {uow : UnitOfWork QueryRunner Err World}.

Local Abbreviation tx := (UnitOfWorkTransaction uow).

(** X1. If [eventPublisherFactory.create] throws, no [publish] call and no
    [save] or [remove] call is made: the log is the call of [transaction],
    the hook, the factory and the rollback.  In [update] in particular
    nothing is saved and nothing is written to the console, since the
    publisher is built before the entity is saved. *)
Theorem factory_rejection_stops_the_work :
  forall (id : string) (data : D) (w w1 : World) (queryRunner : QueryRunner),
    acquire w = (w1, Resolved queryRunner) ->
    (forall (w2 w3 : World) (p : EntityAndEventInterface EN DomainEventInterface) (e : Err),
       getEntityForCreateAndEvent queryRunner data w1 = (w2, Resolved p) ->
       factory_create queryRunner w2 = (w3, Rejected e) ->
       let r := create (transactionService := tx) data w in
       calls r = [CallTransaction; CallGetEntityForCreateAndEvent queryRunner data;
                  CallFactoryCreate queryRunner; CallRollback queryRunner]
       /\ settled r = match snd (rollback queryRunner w3) with
                      | Resolved _ => Rejected e
                      | Rejected e' => Rejected e'
                      end)
    /\ (forall (w2 w3 : World) (p : EntityAndEventInterface EN DomainEventInterface) (e : Err),
       getEntityForUpdateAndEvent queryRunner id data w1 = (w2, Resolved p) ->
       factory_create queryRunner w2 = (w3, Rejected e) ->
       let r := update (transactionService := tx) id data w in
       calls r = [CallTransaction; CallGetEntityForUpdateAndEvent queryRunner id data;
                  CallFactoryCreate queryRunner; CallRollback queryRunner]
       /\ settled r = match snd (rollback queryRunner w3) with
                      | Resolved _ => Rejected e
                      | Rejected e' => Rejected e'
                      end)
    /\ (forall (w2 w3 : World) (p : EntityAndEventInterface EN DomainEventInterface) (e : Err),
       getEntityForDeleteAndEvent queryRunner id w1 = (w2, Resolved p) ->
       factory_create queryRunner w2 = (w3, Rejected e) ->
       let r := delete (transactionService := tx) id w in
       calls r = [CallTransaction; CallGetEntityForDeleteAndEvent queryRunner id;
                  CallFactoryCreate queryRunner; CallRollback queryRunner]
       /\ settled r = Resolved tt).
Proof.
  intros id data w w1 queryRunner Hacq.
  split; [|split]; intros w2 w3 p e Hhook Hfac r; subst r;
    unfold_service; cbn; perform Hacq; perform Hhook; perform Hfac;
    next_call; split; reflexivity.
Qed.

(** X2. If the entity manager rejects.  In [create] the [publish] call has
    already been made when [save] rejects; in [update] neither the console
    nor the publisher is reached; in [delete] the [publish] call has been
    made when [remove] rejects, and [delete] resolves all the same.  In each
    case the manager is asked to roll back and never to commit. *)
Theorem persistence_rejection_rolls_back :
  forall (id : string) (data : D) (w w1 : World) (queryRunner : QueryRunner),
    acquire w = (w1, Resolved queryRunner) ->
    (forall (w2 w3 w4 w5 : World) (p : EntityAndEventInterface EN DomainEventInterface)
            (eventPublisher : EventPublisher) (e : Err),
       getEntityForCreateAndEvent queryRunner data w1 = (w2, Resolved p) ->
       factory_create queryRunner w2 = (w3, Resolved eventPublisher) ->
       publish eventPublisher (event p) w3 = (w4, Resolved tt) ->
       manager_save queryRunner (entity p) w4 = (w5, Rejected e) ->
       let r := create (transactionService := tx) data w in
       calls r = [CallTransaction; CallGetEntityForCreateAndEvent queryRunner data;
                  CallFactoryCreate queryRunner; CallPublish eventPublisher (event p);
                  CallSave queryRunner (entity p); CallRollback queryRunner]
       /\ final r = fst (rollback queryRunner w5)
       /\ settled r = match snd (rollback queryRunner w5) with
                      | Resolved _ => Rejected e
                      | Rejected e' => Rejected e'
                      end)
    /\ (forall (w2 w3 w4 : World) (p : EntityAndEventInterface EN DomainEventInterface)
               (eventPublisher : EventPublisher) (e : Err),
       getEntityForUpdateAndEvent queryRunner id data w1 = (w2, Resolved p) ->
       factory_create queryRunner w2 = (w3, Resolved eventPublisher) ->
       manager_save queryRunner (entity p) w3 = (w4, Rejected e) ->
       let r := update (transactionService := tx) id data w in
       calls r = [CallTransaction; CallGetEntityForUpdateAndEvent queryRunner id data;
                  CallFactoryCreate queryRunner; CallSave queryRunner (entity p);
                  CallRollback queryRunner]
       /\ count_calls is_console_log (calls r) = 0
       /\ count_calls is_publish (calls r) = 0
       /\ final r = fst (rollback queryRunner w4)
       /\ settled r = match snd (rollback queryRunner w4) with
                      | Resolved _ => Rejected e
                      | Rejected e' => Rejected e'
                      end)
    /\ (forall (w2 w3 w4 w5 : World) (p : EntityAndEventInterface EN DomainEventInterface)
               (eventPublisher : EventPublisher) (e : Err),
       getEntityForDeleteAndEvent queryRunner id w1 = (w2, Resolved p) ->
       factory_create queryRunner w2 = (w3, Resolved eventPublisher) ->
       publish eventPublisher (event p) w3 = (w4, Resolved tt) ->
       manager_remove queryRunner (entity p) w4 = (w5, Rejected e) ->
       let r := delete (transactionService := tx) id w in
       calls r = [CallTransaction; CallGetEntityForDeleteAndEvent queryRunner id;
                  CallFactoryCreate queryRunner; CallPublish eventPublisher (event p);
                  CallRemove queryRunner (entity p); CallRollback queryRunner]
       /\ final r = fst (rollback queryRunner w5)
       /\ settled r = Resolved tt).
Proof.
  intros id data w w1 queryRunner Hacq.
  split; [|split].
  - intros w2 w3 w4 w5 p eventPublisher e Hhook Hfac Hpub Hsave r. subst r.
    unfold_service. cbn.
    perform Hacq. perform Hhook. perform Hfac. perform Hpub. perform Hsave.
    next_call; repeat split; reflexivity.
  - intros w2 w3 w4 p eventPublisher e Hhook Hfac Hsave r. subst r.
    unfold_service. cbn.
    perform Hacq. perform Hhook. perform Hfac. perform Hsave.
    next_call; repeat split; reflexivity.
  - intros w2 w3 w4 w5 p eventPublisher e Hhook Hfac Hpub Hrem r. subst r.
    unfold_service. cbn.
    perform Hacq. perform Hhook. perform Hfac. perform Hpub. perform Hrem.
    next_call; repeat split; reflexivity.
Qed.

(** X3. A resolved promise means that everything succeeded: if [create] or
    [update] resolves to [v], then a unit of work was acquired, the hook,
    the factory, [publish] and [save] resolved, [v] is the value [save]
    returned, the commit resolved, and the log is the complete sequence of
    calls ending with the commit.  No failure is swallowed. *)
Theorem resolved_means_committed :
  forall (id : string) (data : D) (w : World) (v : EN),
    (settled (create (transactionService := tx) data w) = Resolved v ->
     exists (queryRunner : QueryRunner) (p : EntityAndEventInterface EN DomainEventInterface)
            (eventPublisher : EventPublisher) (w1 w2 w3 w4 w5 w6 : World),
       acquire w = (w1, Resolved queryRunner)
       /\ getEntityForCreateAndEvent queryRunner data w1 = (w2, Resolved p)
       /\ factory_create queryRunner w2 = (w3, Resolved eventPublisher)
       /\ publish eventPublisher (event p) w3 = (w4, Resolved tt)
       /\ manager_save queryRunner (entity p) w4 = (w5, Resolved v)
       /\ commit queryRunner w5 = (w6, Resolved tt)
       /\ create (transactionService := tx) data w
          = {| calls := [CallTransaction;
                         CallGetEntityForCreateAndEvent queryRunner data;
                         CallFactoryCreate queryRunner;
                         CallPublish eventPublisher (event p);
                         CallSave queryRunner (entity p);
                         CallCommit queryRunner];
               final := w6; settled := Resolved v |})
    /\ (settled (update (transactionService := tx) id data w) = Resolved v ->
     exists (queryRunner : QueryRunner) (p : EntityAndEventInterface EN DomainEventInterface)
            (eventPublisher : EventPublisher) (w1 w2 w3 w4 w5 w6 : World),
       acquire w = (w1, Resolved queryRunner)
       /\ getEntityForUpdateAndEvent queryRunner id data w1 = (w2, Resolved p)
       /\ factory_create queryRunner w2 = (w3, Resolved eventPublisher)
       /\ manager_save queryRunner (entity p) w3 = (w4, Resolved v)
       /\ publish eventPublisher (event p) w4 = (w5, Resolved tt)
       /\ commit queryRunner w5 = (w6, Resolved tt)
       /\ update (transactionService := tx) id data w
          = {| calls := [CallTransaction;
                         CallGetEntityForUpdateAndEvent queryRunner id data;
                         CallFactoryCreate queryRunner;
                         CallSave queryRunner (entity p);
                         CallConsoleLog v;
                         CallPublish eventPublisher (event p);
                         CallCommit queryRunner];
               final := w6; settled := Resolved v |}).
Proof.
  intros id data w v. split.
  - unfold_service. cbn.
    destruct (acquire w) as [w1 [queryRunner|?]] eqn:Hacq; cbn; [|discriminate].
    destruct (getEntityForCreateAndEvent queryRunner data w1)
      as [w2 [p|?]] eqn:Hhook; cbn;
      [|destruct (rollback queryRunner w2) as [? [?|?]]; discriminate].
    destruct (factory_create queryRunner w2) as [w3 [eventPublisher|?]] eqn:Hfac; cbn;
      [|destruct (rollback queryRunner w3) as [? [?|?]]; discriminate].
    destruct (publish eventPublisher (event p) w3) as [w4 [[]|?]] eqn:Hpub; cbn;
      [|destruct (rollback queryRunner w4) as [? [?|?]]; discriminate].
    destruct (manager_save queryRunner (entity p) w4) as [w5 [saved|?]] eqn:Hsave; cbn;
      [|destruct (rollback queryRunner w5) as [? [?|?]]; discriminate].
    destruct (commit queryRunner w5) as [w6 [[]|?]] eqn:Hcommit; cbn; [|discriminate].
    intros H. injection H as ->.
    exists queryRunner, p, eventPublisher, w1, w2, w3, w4, w5, w6.
    repeat split; assumption.
  - unfold_service. cbn.
    destruct (acquire w) as [w1 [queryRunner|?]] eqn:Hacq; cbn; [|discriminate].
    destruct (getEntityForUpdateAndEvent queryRunner id data w1)
      as [w2 [p|?]] eqn:Hhook; cbn;
      [|destruct (rollback queryRunner w2) as [? [?|?]]; discriminate].
    destruct (factory_create queryRunner w2) as [w3 [eventPublisher|?]] eqn:Hfac; cbn;
      [|destruct (rollback queryRunner w3) as [? [?|?]]; discriminate].
    destruct (manager_save queryRunner (entity p) w3) as [w4 [saved|?]] eqn:Hsave; cbn;
      [|destruct (rollback queryRunner w4) as [? [?|?]]; discriminate].
    destruct (publish eventPublisher (event p) w4) as [w5 [[]|?]] eqn:Hpub; cbn;
      [|destruct (rollback queryRunner w5) as [? [?|?]]; discriminate].
    destruct (commit queryRunner w5) as [w6 [[]|?]] eqn:Hcommit; cbn; [|discriminate].
    intros H. injection H as ->.
    exists queryRunner, p, eventPublisher, w1, w2, w3, w4, w5, w6.
    repeat split; assumption.
Qed.

(** X4. Where a rejection comes from, in the run itself.  If [create] or
    [update] rejects with [e], then in this run either the acquisition
    rejected with [e]; or the work function resolved and the commit,
    applied to the world it left, rejected with [e]; or the work function
    rejected with [e] and the rollback resolved; or the rollback rejected
    with [e].  And if a work function rejects with [e], then [e] is the
    error of the first of its calls that rejected (the hook, the factory,
    [publish] or [save]), every call before it having resolved. *)
Theorem rejections_come_from_collaborators :
  forall (id : string) (data : D),
    (forall (w : World) (e : Err),
        settled (create (transactionService := tx) data w) = Rejected e ->
        (exists w1, acquire w = (w1, Rejected e))
        \/ (exists w1 queryRunner,
              acquire w = (w1, Resolved queryRunner)
              /\ let t := create_work data queryRunner w1 in
                 ((exists v w', settled t = Resolved v
                                /\ commit queryRunner (final t) = (w', Rejected e))
                  \/ (exists w', settled t = Rejected e
                                 /\ rollback queryRunner (final t) = (w', Resolved tt))
                  \/ (exists e0 w', settled t = Rejected e0
                                    /\ rollback queryRunner (final t) = (w', Rejected e)))))
    /\ (forall (w : World) (e : Err),
        settled (update (transactionService := tx) id data w) = Rejected e ->
        (exists w1, acquire w = (w1, Rejected e))
        \/ (exists w1 queryRunner,
              acquire w = (w1, Resolved queryRunner)
              /\ let t := update_work id data queryRunner w1 in
                 ((exists v w', settled t = Resolved v
                                /\ commit queryRunner (final t) = (w', Rejected e))
                  \/ (exists w', settled t = Rejected e
                                 /\ rollback queryRunner (final t) = (w', Resolved tt))
                  \/ (exists e0 w', settled t = Rejected e0
                                    /\ rollback queryRunner (final t) = (w', Rejected e)))))
    /\ (forall (queryRunner : QueryRunner) (w1 : World) (e : Err),
        settled (create_work data queryRunner w1) = Rejected e ->
        (exists w', getEntityForCreateAndEvent queryRunner data w1 = (w', Rejected e))
        \/ (exists p w2 w',
              getEntityForCreateAndEvent queryRunner data w1 = (w2, Resolved p)
              /\ factory_create queryRunner w2 = (w', Rejected e))
        \/ (exists p eventPublisher w2 w3 w',
              getEntityForCreateAndEvent queryRunner data w1 = (w2, Resolved p)
              /\ factory_create queryRunner w2 = (w3, Resolved eventPublisher)
              /\ publish eventPublisher (event p) w3 = (w', Rejected e))
        \/ (exists p eventPublisher w2 w3 w4 w',
              getEntityForCreateAndEvent queryRunner data w1 = (w2, Resolved p)
              /\ factory_create queryRunner w2 = (w3, Resolved eventPublisher)
              /\ publish eventPublisher (event p) w3 = (w4, Resolved tt)
              /\ manager_save queryRunner (entity p) w4 = (w', Rejected e)))
    /\ (forall (queryRunner : QueryRunner) (w1 : World) (e : Err),
        settled (update_work id data queryRunner w1) = Rejected e ->
        (exists w', getEntityForUpdateAndEvent queryRunner id data w1 = (w', Rejected e))
        \/ (exists p w2 w',
              getEntityForUpdateAndEvent queryRunner id data w1 = (w2, Resolved p)
              /\ factory_create queryRunner w2 = (w', Rejected e))
        \/ (exists p eventPublisher w2 w3 w',
              getEntityForUpdateAndEvent queryRunner id data w1 = (w2, Resolved p)
              /\ factory_create queryRunner w2 = (w3, Resolved eventPublisher)
              /\ manager_save queryRunner (entity p) w3 = (w', Rejected e))
        \/ (exists p eventPublisher saved w2 w3 w4 w',
              getEntityForUpdateAndEvent queryRunner id data w1 = (w2, Resolved p)
              /\ factory_create queryRunner w2 = (w3, Resolved eventPublisher)
              /\ manager_save queryRunner (entity p) w3 = (w4, Resolved saved)
              /\ publish eventPublisher (event p) w4 = (w', Rejected e))).
Proof.
  intros id data. split; [|split; [|split]].
  - intros w e. cbv zeta. unfold_service. cbn.
    repeat next_call; intros H; try discriminate; injection H as H; subst; pick.
  - intros w e. cbv zeta. unfold_service. cbn.
    repeat next_call; intros H; try discriminate; injection H as H; subst; pick.
  - intros queryRunner w1 e. unfold_service.
    repeat next_call; intros H; try discriminate; injection H as H; subst; pick.
  - intros queryRunner w1 e. unfold_service.
    repeat next_call; intros H; try discriminate; injection H as H; subst; pick.
Qed.

(** X5. What the code never does, whatever the collaborators do.  The
    work function of [create] and that of [update] never call [remove],
    that of [delete] never calls [save]; each work function calls its hook
    exactly once and the factory, [publish] and the entity manager at most
    once.  The same bounds hold of a whole invocation under the
    unit-of-work manager, which runs the work function at most once. *)
Theorem calls_are_made_at_most_once :
  forall (id : string) (data : D) (queryRunner : QueryRunner) (w : World),
    (let c := calls (create_work data queryRunner w) in
     let u := calls (update_work id data queryRunner w) in
     let d := calls (delete_work id queryRunner w) in
     count_calls is_remove c = 0
     /\ count_calls is_remove u = 0
     /\ count_calls is_save d = 0
     /\ Forall (fun l => count_calls is_hook l = 1
                         /\ count_calls is_factory_create l <= 1
                         /\ count_calls is_publish l <= 1
                         /\ count_calls is_persist l <= 1)
          [c; u; d])
    /\ (let c := calls (create (transactionService := tx) data w) in
        let u := calls (update (transactionService := tx) id data w) in
        let d := calls (delete (transactionService := tx) id w) in
        count_calls is_remove c = 0
        /\ count_calls is_remove u = 0
        /\ count_calls is_save d = 0
        /\ Forall (fun l => count_calls is_hook l <= 1
                            /\ count_calls is_factory_create l <= 1
                            /\ count_calls is_publish l <= 1
                            /\ count_calls is_persist l <= 1)
             [c; u; d]).
Proof.
  intros id data queryRunner w. split.
  - cbv zeta. split; [|split; [|split]].
    + unfold_service. repeat next_call; reflexivity.
    + unfold_service. repeat next_call; reflexivity.
    + unfold_service. repeat next_call; reflexivity.
    + repeat apply Forall_cons; [| | |apply Forall_nil];
        unfold_service; repeat next_call; cbn; repeat split; lia.
  - cbv zeta. split; [|split; [|split]].
    + unfold_service. cbn. repeat next_call; reflexivity.
    + unfold_service. cbn. repeat next_call; reflexivity.
    + unfold_service. cbn. repeat next_call; reflexivity.
    + repeat apply Forall_cons; [| | |apply Forall_nil];
        unfold_service; cbn; repeat next_call; cbn; repeat split; lia.
Qed.

(** X6. The hook is called exactly when a unit of work has been acquired.
    If the acquisition fails, the call of [transaction] is the only call,
    [create] and [update] reject with the error of the acquisition and
    [delete] resolves.  If it succeeds, the first call after [transaction]
    is the operation's own hook, with the acquired handle and the caller's
    [id] and [data] as they were given, and no hook is called again. *)
Theorem hook_is_called_first_with_the_callers_arguments :
  forall (id : string) (data : D) (w : World),
    (forall (w1 : World) (e : Err),
        acquire w = (w1, Rejected e) ->
        create (transactionService := tx) data w
        = {| calls := [CallTransaction]; final := w1; settled := Rejected e |}
        /\ update (transactionService := tx) id data w
           = {| calls := [CallTransaction]; final := w1; settled := Rejected e |}
        /\ delete (transactionService := tx) id w
           = {| calls := [CallTransaction]; final := w1; settled := Resolved tt |})
    /\ (forall (w1 : World) (queryRunner : QueryRunner),
        acquire w = (w1, Resolved queryRunner) ->
        (exists rest,
            calls (create (transactionService := tx) data w)
            = CallTransaction :: CallGetEntityForCreateAndEvent queryRunner data :: rest
            /\ count_calls is_hook rest = 0)
        /\ (exists rest,
            calls (update (transactionService := tx) id data w)
            = CallTransaction :: CallGetEntityForUpdateAndEvent queryRunner id data :: rest
            /\ count_calls is_hook rest = 0)
        /\ (exists rest,
            calls (delete (transactionService := tx) id w)
            = CallTransaction :: CallGetEntityForDeleteAndEvent queryRunner id :: rest
            /\ count_calls is_hook rest = 0)).
Proof.
  intros id data w. split.
  - intros w1 e Hacq.
    repeat split; unfold_service; cbn; perform Hacq; reflexivity.
  - intros w1 queryRunner Hacq.
    split; [|split]; unfold_service; cbn; perform Hacq;
      repeat next_call; eexists; split; reflexivity.
Qed.

(** X7. The order of the calls does not depend on their success.  In
    [create] a [save] call is made exactly when a [publish] call was made
    before it; in [update] a [publish] call is made exactly when a [save]
    call was made before it, and exactly when the console was written to;
    in [delete] a [remove] call is made exactly when a [publish] call was
    made before it; and in all three a [publish] call is made only after the
    factory was called. *)
Theorem order_of_calls :
  forall (id : string) (data : D) (w : World),
    let c := calls (create (transactionService := tx) data w) in
    let u := calls (update (transactionService := tx) id data w) in
    let d := calls (delete (transactionService := tx) id w) in
    happens_before is_publish is_save c = (count_calls is_save c =? 1)%nat
    /\ happens_before is_save is_publish u = (count_calls is_publish u =? 1)%nat
    /\ count_calls is_console_log u = count_calls is_publish u
    /\ happens_before is_publish is_remove d = (count_calls is_remove d =? 1)%nat
    /\ Forall (fun l => happens_before is_factory_create is_publish l
                        = (count_calls is_publish l =? 1)%nat)
         [c; u; d].
Proof.
  intros id data w c u d. subst c u d.
  split; [|split; [|split; [|split]]].
  - unfold_service. cbn. repeat next_call; reflexivity.
  - unfold_service. cbn. repeat next_call; reflexivity.
  - unfold_service. cbn. repeat next_call; reflexivity.
  - unfold_service. cbn. repeat next_call; reflexivity.
  - repeat apply Forall_cons; [| | |apply Forall_nil];
      unfold_service; cbn; repeat next_call; reflexivity.
Qed.

End FurtherProperties.

(** ** The further properties on the in-memory service *)

(** The factory throws "no publisher": nothing is published, saved or
    removed. *)
Lemma factory_rejection_stops_the_work_witness :
  let w := Demo.with_one [Demo.FactoryFails] in
  (calls (Demo.demo_create "B" w)
   = [CallTransaction; CallGetEntityForCreateAndEvent 7 "B"; CallFactoryCreate 7;
      CallRollback 7]
   /\ settled (Demo.demo_create "B" w) = Rejected "no publisher")
  /\ (calls (Demo.demo_update "1" "B" w)
      = [CallTransaction; CallGetEntityForUpdateAndEvent 7 "1" "B"; CallFactoryCreate 7;
         CallRollback 7]
      /\ settled (Demo.demo_update "1" "B" w) = Rejected "no publisher")
  /\ (calls (Demo.demo_delete "1" w)
      = [CallTransaction; CallGetEntityForDeleteAndEvent 7 "1"; CallFactoryCreate 7;
         CallRollback 7]
      /\ settled (Demo.demo_delete "1" w) = Resolved tt).
Proof.
  intros w.
  pose (w1 := Demo.begun w).
  destruct (@factory_rejection_stops_the_work _ _ _ _ _ _ _
              Demo.demo_hooks Demo.demo_factory Demo.demo_manager Demo.demo_uow
              "1" "B" w w1 7 eq_refl) as (Hcreate & Hupdate & Hdelete).
  exact (conj (Hcreate w1 w1
                 {| entity := {| Demo.person_id := None; Demo.person_name := "B" |};
                    event := "PersonCreated" |}
                 "no publisher" eq_refl eq_refl)
           (conj (Hupdate w1 w1
                    {| entity := {| Demo.person_id := Some "1"; Demo.person_name := "B" |};
                       event := "PersonUpdated" |}
                    "no publisher" eq_refl eq_refl)
                 (Hdelete w1 w1
                    {| entity := {| Demo.person_id := Some "1"; Demo.person_name := "A" |};
                       event := "PersonDeleted" |}
                    "no publisher" eq_refl eq_refl))).
Defined.

(** [save] and [remove] reject: the rollback restores the table and empties
    the outbox, although [create] and [delete] had published. *)
Lemma persistence_rejection_rolls_back_witness :
  let w := Demo.with_one [Demo.SaveFails; Demo.RemoveFails] in
  (calls (Demo.demo_create "B" w)
   = [CallTransaction; CallGetEntityForCreateAndEvent 7 "B"; CallFactoryCreate 7;
      CallPublish 7 "PersonCreated";
      CallSave 7 {| Demo.person_id := None; Demo.person_name := "B" |};
      CallRollback 7]
   /\ Demo.outbox (final (Demo.demo_create "B" w)) = []
   /\ settled (Demo.demo_create "B" w) = Rejected "constraint violation")
  /\ (count_calls is_console_log (calls (Demo.demo_update "1" "B" w)) = 0
      /\ count_calls is_publish (calls (Demo.demo_update "1" "B" w)) = 0
      /\ settled (Demo.demo_update "1" "B" w) = Rejected "constraint violation")
  /\ (Demo.outbox (final (Demo.demo_delete "1" w)) = []
      /\ settled (Demo.demo_delete "1" w) = Resolved tt).
Proof.
  intros w.
  pose (w1 := Demo.begun w).
  pose (person := {| Demo.person_id := Some "1"; Demo.person_name := "A" |}).
  pose (changed := {| Demo.person_id := Some "1"; Demo.person_name := "B" |}).
  destruct (@persistence_rejection_rolls_back _ _ _ _ _ _ _
              Demo.demo_hooks Demo.demo_factory Demo.demo_manager Demo.demo_uow
              "1" "B" w w1 7 eq_refl) as (Hcreate & Hupdate & Hdelete).
  destruct (Hcreate w1 w1 (Demo.with_outbox ["PersonCreated"] w1)
              (Demo.with_outbox ["PersonCreated"] w1)
              {| entity := {| Demo.person_id := None; Demo.person_name := "B" |};
                 event := "PersonCreated" |}
              7 "constraint violation" eq_refl eq_refl eq_refl eq_refl)
    as (Hc1 & Hc2 & Hc3).
  destruct (Hupdate w1 w1 w1 {| entity := changed; event := "PersonUpdated" |}
              7 "constraint violation" eq_refl eq_refl eq_refl)
    as (_ & Hu1 & Hu2 & _ & Hu3).
  destruct (Hdelete w1 w1 (Demo.with_outbox ["PersonDeleted"] w1)
              (Demo.with_outbox ["PersonDeleted"] w1)
              {| entity := person; event := "PersonDeleted" |}
              7 "remove failed" eq_refl eq_refl eq_refl eq_refl)
    as (_ & Hd1 & Hd2).
  exact (conj (conj Hc1 (conj (f_equal Demo.outbox Hc2) Hc3))
           (conj (conj Hu1 (conj Hu2 Hu3))
                 (conj (f_equal Demo.outbox Hd1) Hd2))).
Defined.

(** [create] resolves to the person with the id "1": so the commit was asked
    for and resolved, and the database is the committed one. *)
Lemma resolved_means_committed_witness :
  exists w5 w6,
    commit (UnitOfWork := Demo.demo_uow) 7 w5 = (w6, Resolved tt)
    /\ final (Demo.demo_create "A" (Demo.empty [])) = w6
    /\ Demo.rows w6 = [{| Demo.person_id := Some "1"; Demo.person_name := "A" |}].
Proof.
  destruct (proj1 (@resolved_means_committed _ _ _ _ _ _ _
                     Demo.demo_hooks Demo.demo_factory Demo.demo_manager Demo.demo_uow
                     "1" "A" (Demo.empty [])
                     {| Demo.person_id := Some "1"; Demo.person_name := "A" |})
              eq_refl)
    as (queryRunner & p & eventPublisher & w1 & w2 & w3 & w4 & w5 & w6
        & Hacq & Hhook & Hfac & Hpub & Hsave & Hcommit & Hrun).
  injection Hacq as <- <-.
  exists w5, w6. split; [exact Hcommit|]. split.
  - exact (f_equal (fun r => final r) Hrun).
  - exact (eq_sym (f_equal (fun r => Demo.rows (final r)) Hrun)).
Defined.

(** [create] rejects with "constraint violation" when [save] is set to
    fail: the work function rejected with it and the rollback resolved; and
    in the work function it is [save] that rejected, after the hook, the
    factory and [publish] resolved. *)
Lemma rejections_come_from_collaborators_witness :
  (exists w',
      settled (create_work (hooks := Demo.demo_hooks)
                 (eventPublisherFactory := Demo.demo_factory)
                 (manager := Demo.demo_manager) "A" 7
                 (Demo.begun (Demo.empty [Demo.SaveFails])))
      = Rejected "constraint violation"
      /\ rollback (UnitOfWork := Demo.demo_uow) 7
           (Demo.with_outbox ["PersonCreated"] (Demo.begun (Demo.empty [Demo.SaveFails])))
         = (w', Resolved tt))
  /\ exists w',
       manager_save (EntityManager := Demo.demo_manager) 7
         {| Demo.person_id := None; Demo.person_name := "A" |}
         (Demo.with_outbox ["PersonCreated"] (Demo.begun (Demo.empty [Demo.SaveFails])))
       = (w', Rejected "constraint violation").
Proof.
  destruct (@rejections_come_from_collaborators _ _ _ _ _ _ _
              Demo.demo_hooks Demo.demo_factory Demo.demo_manager Demo.demo_uow
              "1" "A") as (Hcreate & _ & Hwork & _).
  split.
  - destruct (Hcreate (Demo.empty [Demo.SaveFails]) "constraint violation" eq_refl)
      as [(w1 & Hacq) | (w1 & queryRunner & Hacq & Hcases)].
    + cbv in Hacq. discriminate Hacq.
    + cbv in Hacq. injection Hacq as <- <-.
      destruct Hcases as [(v & w' & Hs & _) | [(w' & Hs & Hrb) | (e0 & w' & _ & Hrb)]].
      * cbv in Hs. discriminate Hs.
      * exists w'. split; [exact Hs | exact Hrb].
      * cbv in Hrb. discriminate Hrb.
  - destruct (Hwork 7 (Demo.begun (Demo.empty [Demo.SaveFails]))
                "constraint violation" eq_refl)
      as [(w' & H) | [(p & w2 & w' & Hhook & H)
         | [(p & pub & w2 & w3 & w' & Hhook & Hfac & H)
         | (p & pub & w2 & w3 & w4 & w' & Hhook & Hfac & Hpub & Hsave)]]].
    + cbv in H. discriminate H.
    + cbv in Hhook. injection Hhook as <- <-. cbv in H. discriminate H.
    + cbv in Hhook. injection Hhook as <- <-.
      cbv in Hfac. injection Hfac as <- <-. cbv in H. discriminate H.
    + cbv in Hhook. injection Hhook as <- <-.
      cbv in Hfac. injection Hfac as <- <-.
      cbv in Hpub. injection Hpub as <-.
      exists w'. exact Hsave.
Defined.

(** No connection: the hook is never called.  With a connection, the hook
    of [update] is the first call after [transaction], with the id and the
    data of the caller. *)
Lemma hook_is_called_first_with_the_callers_arguments_witness :
  Demo.demo_update "1" "B" (Demo.with_one [Demo.AcquireFails])
  = {| calls := [CallTransaction]; final := Demo.with_one [Demo.AcquireFails];
       settled := Rejected "no connection" |}
  /\ exists rest,
       calls (Demo.demo_update "1" "B" (Demo.with_one []))
       = CallTransaction :: CallGetEntityForUpdateAndEvent 7 "1" "B" :: rest
       /\ count_calls is_hook rest = 0.
Proof.
  split.
  - exact (proj1 (proj2 (proj1 (@hook_is_called_first_with_the_callers_arguments
                                  _ _ _ _ _ _ _
                                  Demo.demo_hooks Demo.demo_factory Demo.demo_manager
                                  Demo.demo_uow
                                  "1" "B" (Demo.with_one [Demo.AcquireFails]))
                           (Demo.with_one [Demo.AcquireFails]) "no connection" eq_refl))).
  - exact (proj1 (proj2 (proj2 (@hook_is_called_first_with_the_callers_arguments
                                  _ _ _ _ _ _ _
                                  Demo.demo_hooks Demo.demo_factory Demo.demo_manager
                                  Demo.demo_uow
                                  "1" "B" (Demo.with_one []))
                           (Demo.begun (Demo.with_one [])) 7 eq_refl))).
Defined.
